(** * Assignment toolkit: type registry, validator, hasher, converter, batch sync

    A shallow embedding of the Go sources of the assignment toolkit
    ([type-mapping.go], [commands.go], [sync.go], [types.go]) and the
    properties its specification states about them.

    Conventions.
    - A Go [string] is a byte sequence: Rocq's [string] (a list of [ascii]).
    - A Go [map] is a [gmap]; a [range] over a map visits its entries in an
      order the runtime chooses afresh each time, so every function that
      ranges over a map takes the visiting order as an argument, and the
      theorems quantify over all orders that enumerate the map.
    - A Go [(T, error)] result is a [result T].
    - Go's [int] is modelled by [Z]; the only arithmetic on it here stays
      within a few hundred of zero or counts the elements of a slice.
    - What the Go standard library does outside the ASCII range, the dynamic
      values behind [interface{}], and [time.Time] are fields of the class
      [GoRuntime]: the development holds for every implementation of them. *)

From Stdlib Require Import Ascii String ZArith Lia.
From stdpp Require Import gmap strings list fin_maps vector pretty.

Open Scope string_scope.
Open Scope list_scope.

(** ** Results and errors *)

Inductive result (A : Type) : Type :=
| Ok (a : A)
| Err (msg : string).
Arguments Ok {A} a.
Arguments Err {A} msg.

Definition is_ok {A} (r : result A) : bool :=
  match r with Ok _ => true | Err _ => false end.

(** ** The part of the Go runtime the program relies on *)

Class GoRuntime : Type := {
  (** non-nil dynamic values stored in an [interface{}] *)
  Dyn : Type;
  (** [time.Time] and its zero value *)
  Time : Type;
  Time_zero : Time;
  (** [t.Format(time.RFC3339)] *)
  Format_RFC3339 : Time -> string;
  (** [strings.Map(unicode.ToLower, s)], reached by [strings.ToLower] when
      [s] has a byte outside ASCII *)
  unicode_ToLower : string -> string;
  (** [strings.TrimFunc(s, unicode.IsSpace)] *)
  unicode_TrimFunc : string -> string;
  (** [strings.TrimRightFunc(s, unicode.IsSpace)] *)
  unicode_TrimRightFunc : string -> string
}.

(** ** Package [strings] *)

Module strings.

(** [c >= utf8.RuneSelf] *)
Definition RuneSelf (c : ascii) : bool := (128 <=? N_of_ascii c)%N.

Definition isUpper (c : ascii) : bool :=
  ((65 <=? N_of_ascii c) && (N_of_ascii c <=? 90))%N.

(** [c += 'a' - 'A'] *)
Definition lowerByte (c : ascii) : ascii :=
  if isUpper c then ascii_of_N (N_of_ascii c + 32) else c.

Fixpoint isASCII (s : string) : bool :=
  match s with
  | EmptyString => true
  | String c s' => negb (RuneSelf c) && isASCII s'
  end.

Fixpoint mapBytes (f : ascii -> ascii) (s : string) : string :=
  match s with
  | EmptyString => EmptyString
  | String c s' => String (f c) (mapBytes f s')
  end.

(** [strings.ToLower]: the ASCII path lowers byte by byte, any other string
    goes through the Unicode tables. *)
Definition ToLower `{GoRuntime} (s : string) : string :=
  if isASCII s then mapBytes lowerByte s else unicode_ToLower s.

(** The table [asciiSpace]: tab, newline, vertical tab, form feed, carriage
    return and space. *)
Definition asciiSpace (c : ascii) : bool :=
  let n := N_of_ascii c in
  ((n =? 9) || (n =? 10) || (n =? 11) || (n =? 12) || (n =? 13) || (n =? 32))%N.

(** One scanning loop of [strings.TrimSpace]: skips ASCII space from the
    front; the flag tells that the loop stopped at a byte outside ASCII
    (where Go hands the rest to the Unicode-aware trimming). *)
Fixpoint skipSpace (s : string) : string * bool :=
  match s with
  | EmptyString => (EmptyString, false)
  | String c s' =>
      if RuneSelf c then (s, true)
      else if asciiSpace c then skipSpace s'
      else (s, false)
  end.

(** [strings.TrimSpace]: the loop from the start, then the same loop from
    the end. *)
Definition TrimSpace `{GoRuntime} (s : string) : string :=
  let '(s1, slow) := skipSpace s in
  if slow then unicode_TrimFunc s1
  else
    let '(r, slow') := skipSpace (String.rev s1) in
    if slow' then unicode_TrimRightFunc (String.rev r)
    else String.rev r.

(** [strings.Contains(s, substr)]: [substr] occurs in [s] at some offset. *)
Fixpoint Contains (s substr : string) : bool :=
  String.prefix substr s ||
  match s with
  | EmptyString => false
  | String _ s' => Contains s' substr
  end.

End strings.

(** ** type-mapping.go *)

Record TypeMapping : Type := mkTypeMapping {
  PortableType : string;
  LMSType : string;
  LMSSubtype : string;
  Description : string;
  Deprecated : bool
}.

#[global] Instance TypeMapping_eq_dec : EqDecision TypeMapping.
Proof. solve_decision. Defined.

Record AssignmentTypeManager : Type := mkManager {
  mappings : gmap string TypeMapping;
  aliases : gmap string string
}.

(** The slice literal [directMappings] of [initializeDefaultMappings]. *)
Definition directMappings : list TypeMapping :=
  [ mkTypeMapping "multiple-choice" "multiple-choice" "" "Multiple choice questions" false;
    mkTypeMapping "true-false" "true-false" "" "True/false questions" false;
    mkTypeMapping "matching" "matching" "" "Match items from two lists" false;
    mkTypeMapping "writing-short" "writing" "" "Short writing assignments" false;
    mkTypeMapping "writing-long" "writing-long" "" "Extended writing assignments" false;
    mkTypeMapping "speaking" "speaking" "" "Oral presentation assignments" false;
    mkTypeMapping "listening" "listening" "" "Audio comprehension exercises" false;
    mkTypeMapping "code-submission" "code-submission" "" "Programming assignments" false;
    mkTypeMapping "image-upload" "image-upload" "" "Image upload assignments" false;
    mkTypeMapping "line-match" "line-match" "" "Line matching exercises (LMS specific)" false;
    mkTypeMapping "phoneme-build" "phoneme-build" "" "Phoneme building exercises (LMS specific)" false;
    mkTypeMapping "drag-drop-ordering" "drag-and-drop" "ordering" "Drag and drop ordering" false;
    mkTypeMapping "drag-drop-categorization" "drag-and-drop" "categorization" "Drag and drop categorization" false;
    mkTypeMapping "drag-drop-fill-blank" "drag-and-drop" "fill-blank" "Drag and drop fill in blanks" false;
    mkTypeMapping "drag-drop-labeling" "drag-and-drop" "labeling" "Drag and drop labeling" false;
    mkTypeMapping "drag-drop-image-caption" "drag-and-drop" "image-caption" "Drag and drop image captions" false;
    mkTypeMapping "generic-assignment" "assignment" "" "Generic assignment type" false;
    mkTypeMapping "essay" "writing-long" "" "Essay assignment (mapped to writing-long)" false;
    mkTypeMapping "quiz" "multiple-choice" "" "Quiz assignment (mapped to multiple-choice)" false;
    mkTypeMapping "presentation" "speaking" "" "Presentation (mapped to speaking)" false;
    mkTypeMapping "comprehension" "listening" "" "Comprehension exercise (mapped to listening)" false ].

(** The map literal assigned to [atm.aliases]. *)
Definition defaultAliases : list (string * string) :=
  [ ("mcq", "multiple-choice");
    ("mc", "multiple-choice");
    ("tf", "true-false");
    ("t/f", "true-false");
    ("match", "matching");
    ("essay", "writing-long");
    ("short-essay", "writing-short");
    ("code", "code-submission");
    ("programming", "code-submission");
    ("drag-drop", "drag-drop-ordering");
    ("dnd", "drag-drop-ordering");
    ("oral", "speaking");
    ("audio", "listening");
    ("image", "image-upload");
    ("upload", "image-upload") ].

(** [atm.mappings[mapping.PortableType] = mapping], the body of the loop. *)
Definition storeMapping (m : gmap string TypeMapping) (tm : TypeMapping)
  : gmap string TypeMapping :=
  <[PortableType tm := tm]> m.

Definition initializeDefaultMappings (atm : AssignmentTypeManager)
  : AssignmentTypeManager :=
  {| mappings := foldl storeMapping (mappings atm) directMappings;
     aliases := list_to_map defaultAliases |}.

Definition NewAssignmentTypeManager : AssignmentTypeManager :=
  initializeDefaultMappings {| mappings := ∅; aliases := ∅ |}.

(** The package-level variable [globalTypeManager] is [None] while it is
    [nil]; [GetTypeManager] returns the manager and the new value of the
    variable. *)
Definition GetTypeManager (globalTypeManager : option AssignmentTypeManager)
  : AssignmentTypeManager * option AssignmentTypeManager :=
  match globalTypeManager with
  | None => (NewAssignmentTypeManager, Some NewAssignmentTypeManager)
  | Some atm => (atm, Some atm)
  end.

Section TypeManager.
Context `{GoRuntime}.

Definition normalize (portableType : string) : string :=
  strings.ToLower (strings.TrimSpace portableType).

Definition ResolveType (atm : AssignmentTypeManager) (portableType : string)
  : result TypeMapping :=
  let normalizedType := normalize portableType in
  match mappings atm !! normalizedType with
  | Some mapping => Ok mapping
  | None =>
      match aliases atm !! normalizedType with
      | Some aliasTarget =>
          match mappings atm !! aliasTarget with
          | Some mapping => Ok mapping
          | None => Err ("unknown assignment type: " +:+ portableType)
          end
      | None => Err ("unknown assignment type: " +:+ portableType)
      end
  end.

Definition ValidatePortableType (atm : AssignmentTypeManager) (portableType : string) : bool :=
  is_ok (ResolveType atm portableType).

Definition GetTypeDescription (atm : AssignmentTypeManager) (portableType : string) : string :=
  match ResolveType atm portableType with
  | Ok mapping => Description mapping
  | Err _ => "Unknown assignment type"
  end.

Definition ConvertToLMSFormat (atm : AssignmentTypeManager) (portableType : string)
  : result (string * string) :=
  match ResolveType atm portableType with
  | Err e => Err e
  | Ok mapping => Ok (LMSType mapping, LMSSubtype mapping)
  end.

(** A [range] over a map visits every entry once, in some order. *)
Definition range_order {V} (m : gmap string V) (order : list (string * V)) : Prop :=
  order ≡ₚ map_to_list m.

(** The loop that removes duplicates: [seen] is the map of the source,
    a missing key reads as [false]. *)
Fixpoint uniqueLoop (seen : gmap string bool) (suggestions : list string) : list string :=
  match suggestions with
  | [] => []
  | suggestion :: rest =>
      if default false (seen !! suggestion)
      then uniqueLoop seen rest
      else suggestion :: uniqueLoop (<[suggestion := true]> seen) rest
  end.

Definition matches (input candidate : string) : bool :=
  strings.Contains candidate input || strings.Contains input candidate.

(** [GetSuggestedTypes]; [morder] and [aorder] are the orders in which the
    two [range] loops visit [atm.mappings] and [atm.aliases]. *)
Definition GetSuggestedTypes
    (morder : list (string * TypeMapping)) (aorder : list (string * string))
    (input : string) : list string :=
  let input := strings.ToLower input in
  let suggestions :=
    (filter (fun kv => matches input kv.1 = true) morder).*1 in
  let suggestions :=
    suggestions ++ (filter (fun kv => matches input kv.1 = true) aorder).*2 in
  uniqueLoop ∅ suggestions.

End TypeManager.

(** ** types.go *)

Module PackageMetadata.
Section Fields.
Context `{GoRuntime}.
Record t : Type := mk {
  ID : string;
  Version : string;
  Created : Time;
  Modified : Time;
  Author : string;
  Email : string;
  License : string;
  Tags : list string;
  Description : string;
  Language : string;
  SourceHash : string;
  Custom : gmap string string
}.
End Fields.
End PackageMetadata.
Abbreviation PackageMetadata := PackageMetadata.t.

Module Assignment.
Section Fields.
Context `{GoRuntime}.
(** [interface{}] fields are [None] when they hold [nil]; pointer fields are
    [None] when they are [nil]. *)
Record t : Type := mk {
  Title : string;
  Description : string;
  Type_ : string;
  Subtype : string;
  Category : string;
  Difficulty : string;
  Questions : option Dyn;
  Instructions : string;
  Criteria : string;
  CodeSubmissionConfig : option Dyn;
  Points : Z;
  TimeLimit : option Z;
  MaxAttempts : option Z;
  AutoGrade : bool;
  ShowFeedback : bool;
  ShuffleQuestions : bool;
  AllowReview : bool;
  DueDate : option Time;
  AvailableFrom : option Time;
  AvailableTo : option Time;
  Quarter : string;
  TrackAttempts : bool;
  TrackConfidence : bool;
  TrackTimeSpent : bool;
  LearningObjectives : list string;
  Prerequisites : list string;
  RecommendedCourses : list string;
  Tags : list string;
  Published : bool
}.
End Fields.
End Assignment.
Abbreviation Assignment := Assignment.t.

Module Resource.
Record t : Type := mk {
  ID : string;
  Title : string;
  Description : string;
  Type_ : string;
  LocalPath : string;
  URL : string;
  FileSize : Z;
  MimeType : string;
  Checksum : string;
  Tags : list string;
  Order : Z;
  IsPublic : bool;
  Metadata : gmap string string
}.
End Resource.
Abbreviation Resource := Resource.t.

Module SoftwareRequirement.
Record t : Type := mk {
  Name : string;
  Version : string;
  Description : string;
  Required : bool
}.
End SoftwareRequirement.

Module Dependencies.
Record t : Type := mk {
  Subjects : list string;
  Prerequisites : list string;
  RecommendedCourses : list string;
  RequiredResources : list string;
  SoftwareRequirements : list SoftwareRequirement.t
}.
End Dependencies.

Module ValidationInfo.
Section Fields.
Context `{GoRuntime}.
Record t : Type := mk {
  IsValid : bool;
  ValidatedAt : Time;
  ValidatorVersion : string;
  Errors : list string;
  Warnings : list string;
  Score : Z
}.
End Fields.
End ValidationInfo.
Abbreviation ValidationInfo := ValidationInfo.t.

Module AssignmentPackage.
Section Fields.
Context `{GoRuntime}.
Record t : Type := mk {
  Metadata : PackageMetadata.t;
  Assignment : Assignment.t;
  Resources : list Resource.t;
  Dependencies : Dependencies.t;
  Validation : ValidationInfo.t
}.
End Fields.
End AssignmentPackage.
Abbreviation AssignmentPackage := AssignmentPackage.t.

Module ImportResult.
Record t : Type := mk {
  AssignmentID : string;
  ResourceIDs : list string;
  Conflicts : list string;
  Status : string;
  Message : string;
  Metadata : gmap string string
}.
End ImportResult.
Abbreviation ImportResult := ImportResult.t.

Module BatchImportResult.
Section Fields.
Context `{GoRuntime}.
Record t : Type := mk {
  BatchID : string;
  TotalCount : Z;
  SuccessCount : Z;
  FailureCount : Z;
  Results : list ImportResult;
  StartedAt : Time;
  CompletedAt : Time
}.
End Fields.
End BatchImportResult.
Abbreviation BatchImportResult := BatchImportResult.t.

(** ** commands.go: validation and hashing *)

Section Validator.
Context `{GoRuntime}.
Import ValidationInfo.

(** [validation.Errors = append(validation.Errors, msg)],
    [validation.IsValid = false], [validation.Score -= penalty]. *)
Definition recordError (msg : string) (penalty : Z) (v : ValidationInfo) : ValidationInfo :=
  {| IsValid := false;
     ValidatedAt := ValidatedAt v;
     ValidatorVersion := ValidatorVersion v;
     Errors := Errors v ++ [msg];
     Warnings := Warnings v;
     Score := Score v - penalty |}.

(** [validation.Warnings = append(validation.Warnings, msg)],
    [validation.Score -= penalty]. *)
Definition recordWarning (msg : string) (penalty : Z) (v : ValidationInfo) : ValidationInfo :=
  {| IsValid := IsValid v;
     ValidatedAt := ValidatedAt v;
     ValidatorVersion := ValidatorVersion v;
     Errors := Errors v;
     Warnings := Warnings v ++ [msg];
     Score := Score v - penalty |}.

(** [validateAssignmentPackage]; [now] is what [time.Now()] returns. *)
Definition validateAssignmentPackage (now : Time) (pkg : AssignmentPackage) : ValidationInfo :=
  let a := AssignmentPackage.Assignment pkg in
  let validation :=
    {| IsValid := true;
       ValidatedAt := now;
       ValidatorVersion := "1.0.0";
       Errors := [];
       Warnings := [];
       Score := 100 |} in
  let validation :=
    if decide (Assignment.Title a = "")
    then recordError "Assignment title is required" 20 validation
    else validation in
  let validation :=
    if decide (Assignment.Type_ a = "")
    then recordError "Assignment type is required" 20 validation
    else validation in
  let validation :=
    if decide (Assignment.Type_ a = "multiple-choice") then
      match Assignment.Questions a with
      | None => recordError "Multiple choice questions are required" 30 validation
      | Some _ => validation
      end
    else if decide (Assignment.Type_ a = "matching") then
      match Assignment.Questions a with
      | None => recordError "Matching items are required" 30 validation
      | Some _ => validation
      end
    else validation in
  let validation :=
    if decide (Assignment.Description a = "")
    then recordWarning "Assignment description is recommended" 5 validation
    else validation in
  let validation :=
    if (Assignment.Points a <=? 0)%Z
    then recordWarning "Assignment should have positive points" 10 validation
    else validation in
  validation.

End Validator.


Module fmt.

(** One lower-case hexadecimal digit. *)
Definition hexDigit (n : N) : ascii :=
  if (n <? 10)%N then ascii_of_N (48 + n) else ascii_of_N (87 + n).

Definition hexByte (c : ascii) : list ascii :=
  [hexDigit (N_of_ascii c / 16); hexDigit (N_of_ascii c mod 16)].

(** [fmt.Sprintf("%x", b)] for a byte array: two digits for each byte. *)
Definition Sprintf_x (b : list ascii) : string :=
  string_of_list_ascii (mbind hexByte b).

End fmt.

Section Hasher.
Context `{GoDigest}.


End Hasher.

(** ** sync.go: the wire record *)

Section Converter.
Context `{GoRuntime}.

(** The values [convertToLMSFormat] stores in its [map[string]interface{}]. *)
Inductive WireValue : Type :=
| WString (s : string)
| WInt (n : Z)
| WBool (b : bool)
| WStrings (l : list string)
| WDyn (v : option Dyn)
| WTime (t : Time).

(** An optional field: the key is set only when the pointer [p] is not
    [nil], to [f] of what it points to. *)
Definition setIfPresent {A} (key : string) (f : A -> WireValue) (p : option A)
    (m : gmap string WireValue) : gmap string WireValue :=
  match p with
  | Some x => <[key := f x]> m
  | None => m
  end.

(** [convertToLMSFormat]; [g] is the variable [globalTypeManager], [now]
    what [time.Now()] returns. The second component is [globalTypeManager]
    after the call. *)
Definition convertToLMSFormat (g : option AssignmentTypeManager) (now : Time)
    (pkg : AssignmentPackage)
  : gmap string WireValue * option AssignmentTypeManager :=
  let assignment := AssignmentPackage.Assignment pkg in
  let '(typeManager, g) := GetTypeManager g in
  let '(lmsType, lmsSubtype) :=
    match ConvertToLMSFormat typeManager (Assignment.Type_ assignment) with
    | Ok (lmsType, lmsSubtype) => (lmsType, lmsSubtype)
    | Err _ => (Assignment.Type_ assignment, Assignment.Subtype assignment)
    end in
  let lmsAssignment : gmap string WireValue :=
    list_to_map
      [ ("title", WString (Assignment.Title assignment));
        ("description", WString (Assignment.Description assignment));
        ("type", WString lmsType);
        ("subtype", WString lmsSubtype);
        ("category", WString (Assignment.Category assignment));
        ("difficulty", WString (Assignment.Difficulty assignment));
        ("points", WInt (Assignment.Points assignment));
        ("instructions", WString (Assignment.Instructions assignment));
        ("criteria", WString (Assignment.Criteria assignment));
        ("autoGrade", WBool (Assignment.AutoGrade assignment));
        ("showFeedback", WBool (Assignment.ShowFeedback assignment));
        ("shuffleQuestions", WBool (Assignment.ShuffleQuestions assignment));
        ("allowReview", WBool (Assignment.AllowReview assignment));
        ("published", WBool (Assignment.Published assignment));
        ("quarter", WString (Assignment.Quarter assignment));
        ("trackAttempts", WBool (Assignment.TrackAttempts assignment));
        ("trackConfidence", WBool (Assignment.TrackConfidence assignment));
        ("trackTimeSpent", WBool (Assignment.TrackTimeSpent assignment));
        ("learningObjectives", WStrings (Assignment.LearningObjectives assignment));
        ("prerequisites", WStrings (Assignment.Prerequisites assignment));
        ("recommendedCourses", WStrings (Assignment.RecommendedCourses assignment));
        ("tags", WStrings (Assignment.Tags assignment));
        ("questions", WDyn (Assignment.Questions assignment));
        ("codeSubmissionConfig", WDyn (Assignment.CodeSubmissionConfig assignment));
        ("templateId", WString (PackageMetadata.ID (AssignmentPackage.Metadata pkg)));
        ("version", WString (PackageMetadata.Version (AssignmentPackage.Metadata pkg)));
        ("sourceHash", WString (PackageMetadata.SourceHash (AssignmentPackage.Metadata pkg)));
        ("importedFrom", WString "assignment-toolkit");
        ("importedAt", WTime now) ] in
  let lmsAssignment :=
    setIfPresent "dueDate" (fun t => WString (Format_RFC3339 t))
      (Assignment.DueDate assignment) lmsAssignment in
  let lmsAssignment :=
    setIfPresent "availableFrom" (fun t => WString (Format_RFC3339 t))
      (Assignment.AvailableFrom assignment) lmsAssignment in
  let lmsAssignment :=
    setIfPresent "availableTo" (fun t => WString (Format_RFC3339 t))
      (Assignment.AvailableTo assignment) lmsAssignment in
  let lmsAssignment :=
    setIfPresent "timeLimit" WInt (Assignment.TimeLimit assignment) lmsAssignment in
  let lmsAssignment :=
    setIfPresent "maxAttempts" WInt (Assignment.MaxAttempts assignment) lmsAssignment in
  (lmsAssignment, g).

End Converter.

(** ** sync.go: the client *)

Record LMSClient : Type := mkLMSClient {
  BaseURL : string;
  APIKey : string
}.

Module Request.
Record t : Type := mk {
  Method : string;
  URL : string;
  Body : string;
  Header : gmap string string
}.
(** [req.Header.Set(key, value)] *)
Definition Header_Set (key value : string) (req : t) : t :=
  {| Method := Method req; URL := URL req; Body := Body req;
     Header := <[key := value]> (Header req) |}.
End Request.

(** Everything outside the process: the clock, the random source of
    [uuid.New], the network behind [c.HTTPClient] and the files read by
    [uploadResource]. A call takes the world and returns the world after
    it. The JSON codec and the validity check of [http.NewRequest] do not
    touch the world. *)
Class LMSWorld `{GoRuntime} : Type := {
  World : Type;
  time_Now : World -> Time * World;
  uuid_New_String : World -> string * World;
  (** [json.Marshal(lmsAssignment)] *)
  json_Marshal_wire : gmap string WireValue -> result string;
  (** the error of [http.NewRequest(method, url, body)], if any *)
  http_NewRequest_error : string -> string -> option string;
  (** [resp.Body] *)
  ResponseBody : Type;
  (** [c.HTTPClient.Do(req)]: the status code and the body to read *)
  HTTPClient_Do : Request.t -> World -> result (Z * ResponseBody) * World;
  ioutil_ReadAll : ResponseBody -> World -> result string * World;
  Body_Close : ResponseBody -> World -> World;
  (** [json.Unmarshal(body, &response)]: [response.Assignment.ID] and
      [response.Message] *)
  json_Unmarshal_response : string -> result (string * string);
  (** [c.uploadResource(assignmentID, resource)]: reads the file and posts
      it as a multipart form *)
  uploadResource : LMSClient -> string -> Resource -> World -> result string * World
}.

Section Sync.
Context `{LMSWorld}.

(** The state of the process as far as these functions see it. *)
Record State : Type := mkState {
  globalTypeManager : option AssignmentTypeManager;
  world : World
}.

(** Computations that change the state and may return an error. *)
Definition IOE (A : Type) : Type := State -> result A * State.

Definition ret {A} (a : A) : IOE A := fun st => (Ok a, st).

Definition fail {A} (msg : string) : IOE A := fun st => (Err msg, st).

Definition bind {A B} (m : IOE A) (k : A -> IOE B) : IOE B :=
  fun st =>
    match m st with
    | (Ok a, st') => k a st'
    | (Err e, st') => (Err e, st')
    end.

(** [fmt.Errorf(prefix + "%v", err)] on the error path. *)
Definition wrap {A} (prefix : string) (m : IOE A) : IOE A :=
  fun st =>
    match m st with
    | (Ok a, st') => (Ok a, st')
    | (Err e, st') => (Err (prefix +:+ e), st')
    end.

Definition pure {A} (r : result A) : IOE A := fun st => (r, st).

Definition inWorld {A} (f : World -> result A * World) : IOE A :=
  fun st =>
    let '(r, w) := f (world st) in
    (r, {| globalTypeManager := globalTypeManager st; world := w |}).

(** [defer cleanup]: runs when the function returns, on every path. *)
Definition defer {A} (cleanup : World -> World) (m : IOE A) : IOE A :=
  fun st =>
    let '(r, st') := m st in
    (r, {| globalTypeManager := globalTypeManager st'; world := cleanup (world st') |}).

#[local] Instance IOE_bind : MBind IOE := fun A B k m => bind m k.

Definition http_NewRequest (method url body : string) : result Request.t :=
  match http_NewRequest_error method url with
  | Some e => Err e
  | None => Ok {| Request.Method := method; Request.URL := url;
                  Request.Body := body; Request.Header := ∅ |}
  end.

(** [convertToLMSFormat(pkg)] as a step of the process. *)
Definition convertToLMSFormat_step (pkg : AssignmentPackage) : IOE (gmap string WireValue) :=
  fun st =>
    let '(now, w) := time_Now (world st) in
    let '(lmsAssignment, g) := convertToLMSFormat (globalTypeManager st) now pkg in
    (Ok lmsAssignment, {| globalTypeManager := g; world := w |}).

(** [uploadResources]: the identifiers collected so far come back together
    with the error. *)
Fixpoint uploadResources_from (c : LMSClient) (assignmentID : string)
    (resourceIDs : list string) (resources : list Resource) (st : State)
  : (list string * option string) * State :=
  match resources with
  | [] => ((resourceIDs, None), st)
  | resource :: rest =>
      if decide (Resource.LocalPath resource = "")
      then uploadResources_from c assignmentID resourceIDs rest st
      else
        match inWorld (uploadResource c assignmentID resource) st with
        | (Err e, st') =>
            ((resourceIDs,
              Some ("failed to upload " +:+ Resource.Title resource +:+ ": " +:+ e)), st')
        | (Ok resourceID, st') =>
            uploadResources_from c assignmentID (resourceIDs ++ [resourceID]) rest st'
        end
  end.

Definition uploadResources (c : LMSClient) (assignmentID : string)
    (resources : list Resource) : IOE (list string * option string) :=
  fun st =>
    let '(r, st') := uploadResources_from c assignmentID [] resources st in
    (Ok r, st').

Definition SyncAssignment (c : LMSClient) (pkg : AssignmentPackage) : IOE ImportResult :=
  lmsAssignment ← convertToLMSFormat_step pkg;
  jsonData ← wrap "failed to marshal assignment: " (pure (json_Marshal_wire lmsAssignment));
  let url := BaseURL c +:+ "/api/assignments" in
  req ← wrap "failed to create request: " (pure (http_NewRequest "POST" url jsonData));
  let req := Request.Header_Set "Content-Type" "application/json" req in
  let req := Request.Header_Set "Authorization" ("Bearer " +:+ APIKey c) req in
  resp ← wrap "failed to send request: " (inWorld (HTTPClient_Do req));
  defer (Body_Close resp.2)
    (body ← wrap "failed to read response: " (inWorld (ioutil_ReadAll resp.2));
     if negb (resp.1 =? 200)%Z && negb (resp.1 =? 201)%Z
     then fail ("API error (" +:+ pretty resp.1 +:+ "): " +:+ body)
     else
       response ← wrap "failed to parse response: " (pure (json_Unmarshal_response body));
       let result :=
         {| ImportResult.AssignmentID := response.1;
            ImportResult.ResourceIDs := [];
            ImportResult.Conflicts := [];
            ImportResult.Status := "success";
            ImportResult.Message := response.2;
            ImportResult.Metadata := ∅ |} in
       if (0 <? length (AssignmentPackage.Resources pkg))%nat then
         (uploaded ← uploadResources c response.1 (AssignmentPackage.Resources pkg);
         match uploaded.2 with
         | Some err =>
             ret {| ImportResult.AssignmentID := response.1;
                    ImportResult.ResourceIDs := [];
                    ImportResult.Conflicts := [];
                    ImportResult.Status := "partial";
                    ImportResult.Message :=
                      response.2 +:+ " Warning: Resource upload failed: " +:+ err;
                    ImportResult.Metadata := ∅ |}
         | None =>
             ret {| ImportResult.AssignmentID := response.1;
                    ImportResult.ResourceIDs := uploaded.1;
                    ImportResult.Conflicts := [];
                    ImportResult.Status := "success";
                    ImportResult.Message := response.2;
                    ImportResult.Metadata := ∅ |}
         end)
       else ret result).

Import BatchImportResult.

(** The entry appended for a package whose [SyncAssignment] returned an
    error. *)
Definition failedResult (msg : string) : ImportResult :=
  {| ImportResult.AssignmentID := "";
     ImportResult.ResourceIDs := [];
     ImportResult.Conflicts := [];
     ImportResult.Status := "failed";
     ImportResult.Message := msg;
     ImportResult.Metadata := ∅ |}.

(** One iteration of the loop of [BatchSyncAssignments]. *)
Definition batchStep (c : LMSClient) (acc : BatchImportResult * State)
    (pkg : AssignmentPackage) : BatchImportResult * State :=
  let '(result, st) := acc in
  match SyncAssignment c pkg st with
  | (Err err, st') =>
      ({| BatchID := BatchID result;
          TotalCount := TotalCount result;
          SuccessCount := SuccessCount result;
          FailureCount := FailureCount result + 1;
          Results := Results result ++ [failedResult err];
          StartedAt := StartedAt result;
          CompletedAt := CompletedAt result |}, st')
  | (Ok importResult, st') =>
      ({| BatchID := BatchID result;
          TotalCount := TotalCount result;
          SuccessCount := SuccessCount result + 1;
          FailureCount := FailureCount result;
          Results := Results result ++ [importResult];
          StartedAt := StartedAt result;
          CompletedAt := CompletedAt result |}, st')
  end.

Definition BatchSyncAssignments (c : LMSClient) (packages : list AssignmentPackage)
  : IOE BatchImportResult :=
  fun st =>
    let '(batchID, w) := uuid_New_String (world st) in
    let '(startedAt, w) := time_Now w in
    let result :=
      {| BatchID := batchID;
         TotalCount := Z.of_nat (length packages);
         SuccessCount := 0;
         FailureCount := 0;
         Results := [];
         StartedAt := startedAt;
         CompletedAt := Time_zero |} in
    let st := {| globalTypeManager := globalTypeManager st; world := w |} in
    let '(result, st) := foldl (batchStep c) (result, st) packages in
    let '(completedAt, w) := time_Now (world st) in
    (Ok {| BatchID := BatchID result;
           TotalCount := TotalCount result;
           SuccessCount := SuccessCount result;
           FailureCount := FailureCount result;
           Results := Results result;
           StartedAt := StartedAt result;
           CompletedAt := completedAt |},
     {| globalTypeManager := globalTypeManager st; world := w |}).

End Sync.

(** * Definitions used in the statements *)

(** ** Inputs to run the definitions on *)

(** A small implementation of the runtime: text outside ASCII is left
    alone, dynamic values are strings, a time is a number of seconds and
    prints as nothing. *)
Definition plainRuntime : GoRuntime :=
  {| Dyn := string;
     Time := Z;
     Time_zero := 0%Z;
     Format_RFC3339 := fun _ => "";
     unicode_ToLower := fun s => s;
     unicode_TrimFunc := fun s => s;
     unicode_TrimRightFunc := fun s => s |}.

Definition emptyMetadata : @PackageMetadata plainRuntime :=
  @PackageMetadata.mk plainRuntime "" "" 0%Z 0%Z "" "" "" [] "" "" "" ∅.

Definition emptyDependencies : Dependencies.t := Dependencies.mk [] [] [] [] [].

Definition emptyValidation : @ValidationInfo plainRuntime :=
  @ValidationInfo.mk plainRuntime false 0%Z "" [] [] 0%Z.

(** An assignment with the given title, type, subtype, description, points
    and questions, and nothing else. *)
Definition assignmentOf (title type subtype description : string) (points : Z)
    (questions : option string) : @Assignment plainRuntime :=
  @Assignment.mk plainRuntime title description type subtype "" "" questions "" "" None
    points None None false false false false None None None "" false false false
    [] [] [] [] false.

Definition packageOf (a : @Assignment plainRuntime) : @AssignmentPackage plainRuntime :=
  @AssignmentPackage.mk plainRuntime emptyMetadata a [] emptyDependencies emptyValidation.

(** A world whose network refuses the second request it is sent and
    answers [201 Created] to the others; the world is the number of
    requests sent so far. *)
Definition secondRequestFails : @LMSWorld plainRuntime :=
  @Build_LMSWorld plainRuntime
    nat
    (fun w => (0%Z, w))
    (fun w => ("batch", w))
    (fun _ => Ok "{}")
    (fun _ _ => None)
    string
    (fun _ w =>
       if Nat.eqb w 1 then (Err "connection refused", S w)
       else (Ok (201%Z, "{}"), S w))
    (fun body w => (Ok body, w))
    (fun _ w => w)
    (fun _ => Ok ("a1", "created"))
    (fun _ _ _ w => (Ok "r1", w)).

Definition threePackages : list (@AssignmentPackage plainRuntime) :=
  [ packageOf (assignmentOf "One" "quiz" "" "" 1 (Some "q"));
    packageOf (assignmentOf "Two" "essay" "" "" 1 None);
    packageOf (assignmentOf "Three" "matching" "" "" 1 (Some "q")) ].

(** Before the first call: [globalTypeManager] is [nil], no request was
    sent. *)
Definition startState : @State plainRuntime secondRequestFails :=
  @mkState plainRuntime secondRequestFails None 0%nat.

Definition exampleClient : LMSClient := mkLMSClient "http://lms.example" "key".

(** ** The registry *)

(** The five portable types of the drag-and-drop family. *)
Definition dragDropTypes : list string :=
  [ "drag-drop-ordering"; "drag-drop-categorization"; "drag-drop-fill-blank";
    "drag-drop-labeling"; "drag-drop-image-caption" ].

(** Two orders in which a [range] may visit [atm.mappings]: the order of
    the literal, and the reverse. *)
Definition literalOrder : list (string * TypeMapping) :=
  (fun tm => (PortableType tm, tm)) <$> directMappings.

Definition reverseOrder : list (string * TypeMapping) := reverse literalOrder.

(** [seen[s]] reads [true]. *)
Definition isSeen (seen : gmap string bool) (s : string) : Prop :=
  default false (seen !! s) = true.

Section StatementsRegistry.
Context `{GoRuntime}.

(** [ResolveType] maps the portable type of an entry of the literal to
    that entry. *)
Definition resolvesToItself (tm : TypeMapping) : Prop :=
  ResolveType NewAssignmentTypeManager (PortableType tm) = Ok tm.

End StatementsRegistry.

(** ** The wire record and the hash *)

Section StatementsConverter.
Context `{GoRuntime}.

(** The type and subtype the converter settles on. *)
Definition wireTypes (atm : AssignmentTypeManager) (a : Assignment) : string * string :=
  match ConvertToLMSFormat atm (Assignment.Type_ a) with
  | Ok p => p
  | Err _ => (Assignment.Type_ a, Assignment.Subtype a)
  end.

End StatementsConverter.


Section StatementsHasher.
Context `{GoDigest}.


End StatementsHasher.

(** The values the program stores in an [interface{}]: what the wizard of
    [runCreate] builds (a [map[string]interface{}] of strings, numbers,
    booleans and string slices) and what [yaml.v2] builds when a file is
    loaded, where a sequence becomes a [[]interface{}] and a mapping a
    [map[interface{}]interface{}]. A map is the list of its entries. *)
Unset Elimination Schemes.
Inductive GoValue : Type :=
| StringValue (s : string)
| IntValue (n : Z)
| BoolValue (b : bool)
| StringSlice (l : list string)
| InterfaceSlice (l : list GoValue)
| StringMap (entries : list (string * GoValue))
| InterfaceMap (entries : list (GoValue * GoValue)).
Set Elimination Schemes.

(** [encoding/json] has an encoder for the type of the value. The keys of
    a map must be strings, integers or text marshalers, so there is none
    for [map[interface{}]interface{}], wherever such a value occurs. *)
Fixpoint jsonSupported (v : GoValue) : bool :=
  match v with
  | InterfaceSlice l =>
      (fix all (l : list GoValue) : bool :=
         match l with
         | [] => true
         | x :: rest => jsonSupported x && all rest
         end) l
  | StringMap entries =>
      (fix all (entries : list (string * GoValue)) : bool :=
         match entries with
         | [] => true
         | (_, x) :: rest => jsonSupported x && all rest
         end) entries
  | InterfaceMap _ => false
  | _ => true
  end.

(** The runtime whose dynamic values are these. *)
Definition valueRuntime : GoRuntime :=
  {| Dyn := GoValue;
     Time := Z;
     Time_zero := 0%Z;
     Format_RFC3339 := fun _ => "";
     unicode_ToLower := fun s => s;
     unicode_TrimFunc := fun s => s;
     unicode_TrimRightFunc := fun s => s |}.







(** ** The batch *)

Section StatementsBatch.
Context `{LMSWorld}.

(** What [SyncAssignment] returns for each package in turn, each call
    starting in the state the previous one left. *)
Fixpoint outcomes (c : LMSClient) (packages : list AssignmentPackage) (st : State)
  : list (result ImportResult) :=
  match packages with
  | [] => []
  | pkg :: rest =>
      let '(o, st') := SyncAssignment c pkg st in
      o :: outcomes c rest st'
  end.

(** The state after the packages were synchronised one after the other. *)
Definition stateAfter (c : LMSClient) (packages : list AssignmentPackage) (st : State) : State :=
  foldl (fun st pkg => (SyncAssignment c pkg st).2) st packages.

(** The entry of the report for one outcome. *)
Definition recorded (o : result ImportResult) : ImportResult :=
  match o with
  | Ok importResult => importResult
  | Err err => failedResult err
  end.

Definition succeeded (o : result ImportResult) : Prop := is_ok o = true.

#[global] Instance succeeded_dec o : Decision (succeeded o).
Proof. unfold succeeded. apply _. Defined.

(** The state in which the loop of [BatchSyncAssignments] starts: after
    [uuid.New()] and [time.Now()]. *)
Definition loopStart (st : State) : State :=
  {| globalTypeManager := globalTypeManager st;
     world := (time_Now (uuid_New_String (world st)).2).2 |}.

End StatementsBatch.

(** * The rest of the code *)

(** ** type-mapping.go: the listings *)

(** [GetPortableTypes]; [morder] is the order in which the [range] loop
    visits [atm.mappings]. *)
Definition GetPortableTypes (morder : list (string * TypeMapping)) : list string :=
  morder.*1.

(** The set [lmsTypes] that the first loop of [GetLMSTypes] builds. *)
Definition lmsTypeSet (morder : list (string * TypeMapping)) : gmap string bool :=
  foldl (fun lmsTypes kv => <[LMSType kv.2 := true]> lmsTypes) ∅ morder.

(** [GetLMSTypes]: the first loop visits [atm.mappings] in the order
    [morder]; [lorder] is the order in which the second loop visits the set
    [lmsTypes] that the first one built. *)
Definition GetLMSTypes (lorder : list (string * bool)) : list string :=
  lorder.*1.

(** The text [ListTypesWithDescriptions] stores for one mapping. *)
Definition describeMapping (mapping : TypeMapping) : string :=
  let lmsInfo :=
    if decide (LMSSubtype mapping = "") then LMSType mapping
    else LMSType mapping +:+ " (" +:+ LMSSubtype mapping +:+ ")" in
  Description mapping +:+ " → " +:+ lmsInfo.

Definition ListTypesWithDescriptions (morder : list (string * TypeMapping))
  : gmap string string :=
  foldl (fun result kv => <[kv.1 := describeMapping kv.2]> result) ∅ morder.

(** ** Statements about the registry *)

(** The mapping a resolution returned, if any: the message of the error
    quotes the input as it was typed and is left out. *)
Definition resolved (r : result TypeMapping) : option TypeMapping :=
  match r with
  | Ok mapping => Some mapping
  | Err _ => None
  end.

(** Only ASCII space. *)
Fixpoint isSpaces (s : string) : bool :=
  match s with
  | EmptyString => true
  | String c s' => strings.asciiSpace c && isSpaces s'
  end.

(** The thirteen types of the LMS. *)
Definition lmsTypes : list string :=
  [ "multiple-choice"; "true-false"; "matching"; "drag-and-drop"; "writing";
    "writing-long"; "speaking"; "assignment"; "listening"; "line-match";
    "phoneme-build"; "image-upload"; "code-submission" ].

(** ** sync.go: the constructor of the client *)

(** [strings.HasSuffix] and [strings.TrimSuffix] *)
Definition strings_HasSuffix (s suffix : string) : bool :=
  (String.length suffix <=? String.length s)%nat &&
  bool_decide (substring (String.length s - String.length suffix)
                 (String.length suffix) s = suffix).

Definition strings_TrimSuffix (s suffix : string) : string :=
  if strings_HasSuffix s suffix
  then substring 0 (String.length s - String.length suffix) s
  else s.

(** [NewLMSClient]; the [http.Client] it creates, with its timeout of 30
    seconds, is the network of the world. *)
Definition NewLMSClient (baseURL apiKey : string) : LMSClient :=
  {| BaseURL := strings_TrimSuffix baseURL "/"; APIKey := apiKey |}.

(** A resource with a local file: the ones [uploadResources] uploads. *)
Definition hasLocalFile (resource : Resource) : Prop :=
  Resource.LocalPath resource <> "".

#[global] Instance hasLocalFile_dec resource : Decision (hasLocalFile resource).
Proof. unfold hasLocalFile. apply _. Defined.

(** ** sync.go: the two checks against the remote system *)

Section RemoteChecks.
Context `{LMSWorld}.

(** What [ioutil.ReadAll] hands back together with an error: the bytes it
    read before the error. *)
Variable readBeforeError : ResponseBody -> World -> string.

(** [json.Unmarshal(body, &response)] of [GetAssignmentByHash], whose
    [response] has the field [Assignment.ID] only. *)
Variable json_Unmarshal_assignment_id : string -> result string.

#[local] Instance IOE_mbind : MBind IOE := fun A B k m => bind m k.

(** [body, _ := ioutil.ReadAll(resp.Body)] *)
Definition readAllIgnoringError (body : ResponseBody) (st : State) : string * State :=
  match ioutil_ReadAll body (world st) with
  | (Ok data, w) => (data, {| globalTypeManager := globalTypeManager st; world := w |})
  | (Err _, w) =>
      (readBeforeError body (world st),
       {| globalTypeManager := globalTypeManager st; world := w |})
  end.

(** [TestConnection]: the error it returns, [Ok tt] for [nil]. *)
Definition TestConnection (c : LMSClient) : IOE unit :=
  let url := BaseURL c +:+ "/api/auth/me" in
  req ← wrap "failed to create request: " (pure (http_NewRequest "GET" url ""));
  let req := Request.Header_Set "Authorization" ("Bearer " +:+ APIKey c) req in
  resp ← wrap "failed to connect to LMS: " (inWorld (HTTPClient_Do req));
  defer (Body_Close resp.2)
    (if (resp.1 =? 401)%Z then fail "authentication failed - check your API key"
     else if negb (resp.1 =? 200)%Z then
       fun st =>
         let '(body, st') := readAllIgnoringError resp.2 st in
         (Err ("LMS returned error (" +:+ pretty resp.1 +:+ "): " +:+ body), st')
     else ret tt).

(** [GetAssignmentByHash]: [Ok None] is the pair of two [nil]. *)
Definition GetAssignmentByHash (c : LMSClient) (hash : string) : IOE (option ImportResult) :=
  let url := BaseURL c +:+ "/api/assignments?sourceHash=" +:+ hash in
  req ← wrap "failed to create request: " (pure (http_NewRequest "GET" url ""));
  let req := Request.Header_Set "Authorization" ("Bearer " +:+ APIKey c) req in
  resp ← wrap "failed to send request: " (inWorld (HTTPClient_Do req));
  defer (Body_Close resp.2)
    (if (resp.1 =? 404)%Z then ret None
     else if negb (resp.1 =? 200)%Z then
       fun st =>
         let '(body, st') := readAllIgnoringError resp.2 st in
         (Err ("API error (" +:+ pretty resp.1 +:+ "): " +:+ body), st')
     else
       body ← wrap "failed to read response: " (inWorld (ioutil_ReadAll resp.2));
       id ← wrap "failed to parse response: " (pure (json_Unmarshal_assignment_id body));
       ret (Some {| ImportResult.AssignmentID := id;
                    ImportResult.ResourceIDs := [];
                    ImportResult.Conflicts := [];
                    ImportResult.Status := "exists";
                    ImportResult.Message := "Assignment already exists";
                    ImportResult.Metadata := ∅ |})).

End RemoteChecks.

(** ** commands.go: the choice of the type in [runCreate] *)

(** A function that returns, or stops the program with a run-time panic. *)
Inductive run (A : Type) : Type :=
| Done (a : A)
| Panic (msg : string).
Arguments Done {A} a.
Arguments Panic {A} msg.

Module strconv.

Definition isDigit (c : ascii) : bool :=
  ((48 <=? N_of_ascii c) && (N_of_ascii c <=? 57))%N.

(** The digits of a decimal number, most significant first. *)
Fixpoint digits (s : string) (n : Z) : option Z :=
  match s with
  | EmptyString => Some n
  | String ch s' =>
      if isDigit ch then digits s' (n * 10 + (Z.of_N (N_of_ascii ch) - 48))%Z
      else None
  end.

(** [strconv.Atoi] where [int] has 64 bits: the number, or [None] when it
    returns an error. The text is an optional sign and at least one digit,
    and the number fits in an [int]. *)
Definition Atoi (s : string) : option Z :=
  match s with
  | EmptyString => None
  | String s0 rest =>
      let neg := bool_decide (s0 = "-"%char) in
      let s := if neg || bool_decide (s0 = "+"%char) then rest else s in
      match s with
      | EmptyString => None
      | _ =>
          match digits s 0 with
          | None => None
          | Some n =>
              let n := if neg then (- n)%Z else n in
              if ((- 2 ^ 63 <=? n) && (n <=? 2 ^ 63 - 1))%Z then Some n else None
          end
      end
  end.

End strconv.

(** [strings.Index]: [None] for -1. *)
Fixpoint strings_Index (s substr : string) : option nat :=
  if String.prefix substr s then Some 0
  else
    match s with
    | EmptyString => None
    | String _ s' => S <$> strings_Index s' substr
    end.

(** The loop of [strings.Split] for a separator that is not empty; each
    round removes at least one byte of [s], so [fuel] bounds the rounds. *)
Fixpoint splitLoop (fuel : nat) (s sep : string) : list string :=
  match fuel with
  | 0 => [s]
  | S fuel' =>
      match strings_Index s sep with
      | None => [s]
      | Some m =>
          substring 0 m s ::
          splitLoop fuel'
            (substring (m + String.length sep) (String.length s - (m + String.length sep)) s)
            sep
      end
  end.

(** [strings.Split(s, sep)] for the separator [String c sep'], which is
    not empty. *)
Definition strings_Split (s : string) (c : ascii) (sep' : string) : list string :=
  splitLoop (String.length s) s (String c sep').

Section Create.
Context `{GoRuntime}.

(** What [promptSelect] prints before it reads. *)
Definition promptSelect_printed (prompt : string) (options : list string) : string :=
  prompt +:+ String "010" "" +:+
  String.concat ""
    (imap (fun i option =>
             "  " +:+ pretty (Z.of_nat (i + 1)) +:+ ". " +:+ option +:+ String "010" "")
          options) +:+
  "Select (1-" +:+ pretty (Z.of_nat (length options)) +:+ "): ".

(** [options[i]], with the panic of an index out of range. *)
Definition index (options : list string) (i : nat) : run string :=
  match options !! i with
  | Some option => Done option
  | None =>
      Panic ("runtime error: index out of range [" +:+ pretty i +:+ "] with length " +:+
             pretty (length options))
  end.

(** [promptSelect]: the text printed and the option returned; [line] is
    what [reader.ReadString] returned. *)
Definition promptSelect (prompt : string) (options : list string) (line : string)
  : string * run string :=
  let input := strings.TrimSpace line in
  (promptSelect_printed prompt options,
   match strconv.Atoi input with
   | Some choice =>
       if ((1 <=? choice) && (choice <=? Z.of_nat (length options)))%Z
       then index options (Z.to_nat (choice - 1))
       else index options 0
   | None => index options 0
   end).

(** How far [runCreate] gets before the wizard. *)
Inductive createStep : Type :=
| UnknownType (inputType : string) (suggestions : list (string * string))
| ResolutionError (err : string)
| Creating (assignmentType lmsType lmsSubtype : string).

(** [runCreate] up to the wizard: the type comes from the argument, or
    from the menu when there is none. [atm] is what [GetTypeManager]
    returned, [morder] and [aorder] are the orders of the [range] loops of
    [GetPortableTypes] and [GetSuggestedTypes], [line] is what the menu
    read. *)
Definition runCreate_type (atm : AssignmentTypeManager)
    (morder : list (string * TypeMapping)) (aorder : list (string * string))
    (args : list string) (line : string) : run createStep :=
  let resolve (assignmentType : string) : createStep :=
    match ConvertToLMSFormat atm assignmentType with
    | Err err => ResolutionError err
    | Ok (lmsType, lmsSubtype) => Creating assignmentType lmsType lmsSubtype
    end in
  match args with
  | inputType :: _ =>
      if negb (ValidatePortableType atm inputType) then
        Done (UnknownType inputType
                ((fun suggestion => (suggestion, GetTypeDescription atm suggestion)) <$>
                 GetSuggestedTypes morder aorder inputType))
      else Done (resolve inputType)
  | [] =>
      let portableTypes := GetPortableTypes morder in
      let typeDescriptions :=
        (fun pType => pType +:+ " (" +:+ GetTypeDescription atm pType +:+ ")") <$>
        portableTypes in
      match (promptSelect "Select assignment type:" typeDescriptions line).2 with
      | Panic msg => Panic msg
      | Done selected =>
          match strings_Split selected " "%char "(" with
          | assignmentType :: _ => Done (resolve assignmentType)
          | [] => Panic "runtime error: index out of range [0] with length 0"
          end
      end
  end.

End Create.

(** ** More inputs to run the definitions on *)

Definition resourceOf (title localPath : string) : Resource :=
  Resource.mk "" title "" "file" localPath "" 0 "" "" [] 0 false ∅.

(** A world whose server answers every request with the status [code]
    and in which the upload number [failing] fails, counting from 0; the
    world is the number of uploads tried so far. *)
Definition scriptedWorld (code : Z) (failing : nat) : @LMSWorld plainRuntime :=
  @Build_LMSWorld plainRuntime
    nat
    (fun w => (0%Z, w))
    (fun w => ("batch", w))
    (fun _ => Ok "{}")
    (fun _ _ => None)
    string
    (fun _ w => (Ok (code, "{}"), w))
    (fun body w => (Ok body, w))
    (fun _ w => w)
    (fun _ => Ok ("a1", "created"))
    (fun _ _ _ w =>
       if Nat.eqb w failing then (Err "no such file", S w)
       else (Ok ("r" +:+ pretty w), S w)).

Definition secondUploadFails : @LMSWorld plainRuntime := scriptedWorld 201 1.

Definition fourResources : list Resource :=
  [ resourceOf "Slides" "slides.pdf"; resourceOf "Link" "";
    resourceOf "Audio" "audio.mp3"; resourceOf "Notes" "notes.txt" ].

Definition packageWithFiles : @AssignmentPackage plainRuntime :=
  @AssignmentPackage.mk plainRuntime emptyMetadata
    (assignmentOf "Listening" "listening" "" "" 1 None)
    fourResources emptyDependencies emptyValidation.

Definition noUploadYet (code : Z) (failing : nat)
  : @State plainRuntime (scriptedWorld code failing) :=
  @mkState plainRuntime (scriptedWorld code failing) None 0%nat.

(** Only decimal digits. *)
Fixpoint isDigits (s : string) : bool :=
  match s with
  | EmptyString => true
  | String c s' => strconv.isDigit c && isDigits s'
  end.

(** The value a call returned, if it returned one. *)
Definition resolved_result {A} (r : result A) : option A :=
  match r with
  | Ok a => Some a
  | Err _ => None
  end.

(** The byte [c] occurs in [s]. *)
Fixpoint containsByte (c : ascii) (s : string) : bool :=
  match s with
  | EmptyString => false
  | String b s' => bool_decide (b = c) || containsByte c s'
  end.
(** ** commands.go: the wizard of [runCreate] *)

Section Wizard.
Context `{GoRuntime}.

(** What the calls of [reader.ReadString] return, in the order in which
    the program makes them, the first being number 0; the error is
    dropped at every call. *)
Variable ReadString : nat -> string.

(** Storing a value in an [interface{}]. *)
Variable interfaceOf : GoValue -> Dyn.

(** [promptString]: the text printed and the value returned; [line] is
    what [reader.ReadString] returned. *)
Definition promptString (prompt defaultValue line : string) : string * string :=
  let printed :=
    if decide (defaultValue <> "") then prompt +:+ " [" +:+ defaultValue +:+ "]: "
    else prompt +:+ ": " in
  let input := strings.TrimSpace line in
  (printed, if decide (input = "") then defaultValue else input).

(** A function that prompts: from the number of lines read so far to its
    result and the number of lines read after it, or to a panic. *)
Definition Prompt (A : Type) : Type := nat -> run (A * nat).

Definition answer {A} (a : A) : Prompt A := fun n => Done (a, n).

#[local] Instance Prompt_bind : MBind Prompt := fun A B k m n =>
  match m n with
  | Done (a, n') => k a n'
  | Panic msg => Panic msg
  end.

(** One call of a prompting function: it reads the next line. *)
Definition prompted {A} (f : string -> run A) : Prompt A := fun n =>
  match f (ReadString n) with
  | Done a => Done (a, S n)
  | Panic msg => Panic msg
  end.

Definition askString (prompt defaultValue : string) : Prompt string :=
  prompted (fun line => Done (promptString prompt defaultValue line).2).

Definition askSelect (prompt : string) (options : list string) : Prompt string :=
  prompted (fun line => (promptSelect prompt options line).2).

(** The loop of [createMultipleChoiceQuestions], from [i] on; [rounds] is
    [10 - i]. *)
Fixpoint optionsLoop (rounds i : nat) (options : list string) : Prompt (list string) :=
  match rounds with
  | 0 => answer options
  | S rounds' =>
      option ← askString ("Option " +:+ pretty (Z.of_nat (i + 1)) +:+ ":") "";
      if decide (option = "") then answer options
      else optionsLoop rounds' (S i) (options ++ [option])
  end.

Definition createMultipleChoiceQuestions : Prompt GoValue :=
  question ← askString "Question:" "";
  options ← optionsLoop 10 0 [];
  correctAnswer ← askSelect "Correct answer:" options;
  explanation ← askString "Explanation (optional):" "";
  answer (StringMap [ ("question", StringValue question);
                      ("options", StringSlice options);
                      ("correctAnswer", StringValue correctAnswer);
                      ("explanation", StringValue explanation) ]).

(** The loop of [createMatchingQuestions], from [i] on. *)
Fixpoint pairsLoop (rounds i : nat) (leftItems rightItems : list string)
  : Prompt (list string * list string) :=
  match rounds with
  | 0 => answer (leftItems, rightItems)
  | S rounds' =>
      left ← askString
        ("Left item " +:+ pretty (Z.of_nat (i + 1)) +:+ " (or Enter to finish):") "";
      if decide (left = "") then answer (leftItems, rightItems)
      else
        right ← askString ("Right item " +:+ pretty (Z.of_nat (i + 1)) +:+ ":") "";
        pairsLoop rounds' (S i) (leftItems ++ [left]) (rightItems ++ [right])
  end.

Definition createMatchingQuestions : Prompt GoValue :=
  items ← pairsLoop 10 0 [] [];
  answer (StringMap [ ("leftItems", StringSlice items.1);
                      ("rightItems", StringSlice items.2) ]).

Definition createCodeSubmissionConfig : Prompt GoValue :=
  language ← askString "Programming language:" "python";
  expectedOutput ← askString "Expected output (optional):" "";
  answer (StringMap [ ("programmingLanguage", StringValue language);
                      ("allowFileUpload", BoolValue true);
                      ("maxFiles", IntValue 5);
                      ("maxFileSizeMb", IntValue 10);
                      ("expectedOutput", StringValue expectedOutput) ]).

(** [createAssignmentWizard]; the [switch] compares the type as it was
    passed with its five literals. *)
Definition createAssignmentWizard (assignmentType : string) : Prompt Assignment :=
  title ← askString "Assignment title:" "";
  description ← askString "Description (optional):" "";
  category ← askString "Category (optional):" "";
  difficulty ← askSelect "Difficulty:" ["beginner"; "intermediate"; "advanced"];
  pointsStr ← askString "Points (default: 1):" "1";
  let points :=
    match strconv.Atoi pointsStr with
    | Some points => points
    | None => 1%Z
    end in
  let assignment (questions : option Dyn) (instructions criteria : string) (autoGrade : bool) :=
    {| Assignment.Title := title;
       Assignment.Description := description;
       Assignment.Type_ := assignmentType;
       Assignment.Subtype := "";
       Assignment.Category := category;
       Assignment.Difficulty := difficulty;
       Assignment.Questions := questions;
       Assignment.Instructions := instructions;
       Assignment.Criteria := criteria;
       Assignment.CodeSubmissionConfig := None;
       Assignment.Points := points;
       Assignment.TimeLimit := None;
       Assignment.MaxAttempts := None;
       Assignment.AutoGrade := autoGrade;
       Assignment.ShowFeedback := true;
       Assignment.ShuffleQuestions := false;
       Assignment.AllowReview := true;
       Assignment.DueDate := None;
       Assignment.AvailableFrom := None;
       Assignment.AvailableTo := None;
       Assignment.Quarter := "Q1";
       Assignment.TrackAttempts := true;
       Assignment.TrackConfidence := true;
       Assignment.TrackTimeSpent := true;
       Assignment.LearningObjectives := [];
       Assignment.Prerequisites := [];
       Assignment.RecommendedCourses := [];
       Assignment.Tags := [];
       Assignment.Published := true |} in
  if decide (assignmentType = "multiple-choice") then
    questions ← createMultipleChoiceQuestions;
    answer (assignment (Some (interfaceOf questions)) "" "" true)
  else if decide (assignmentType = "matching") then
    questions ← createMatchingQuestions;
    answer (assignment (Some (interfaceOf questions)) "" "" true)
  else if decide (assignmentType = "writing" \/ assignmentType = "writing-long") then
    instructions ← askString "Instructions:" "";
    criteria ← askString "Grading criteria:" "";
    answer (assignment None instructions criteria false)
  else if decide (assignmentType = "code-submission") then
    questions ← createCodeSubmissionConfig;
    answer (assignment (Some (interfaceOf questions)) "" "" false)
  else answer (assignment None "" "" true).

(** How far [runCreate] gets before it builds the package. *)
Inductive creation : Type :=
| Stopped (step : createStep)
| Created (assignmentType lmsType lmsSubtype : string) (assignment : Assignment).

(** [runCreate] up to the return of the wizard. The menu, when there is
    one, reads line 0; the wizard reads the lines after it. *)
Definition runCreate_assignment (atm : AssignmentTypeManager)
    (morder : list (string * TypeMapping)) (aorder : list (string * string))
    (args : list string) : run creation :=
  let readByMenu := match args with [] => 1 | _ :: _ => 0 end in
  match runCreate_type atm morder aorder args (ReadString 0) with
  | Panic msg => Panic msg
  | Done (Creating assignmentType lmsType lmsSubtype) =>
      match createAssignmentWizard assignmentType readByMenu with
      | Panic msg => Panic msg
      | Done (assignment, _) => Done (Created assignmentType lmsType lmsSubtype assignment)
      end
  | Done step => Done (Stopped step)
  end.

End Wizard.

(** The lines typed, one for each call of [ReadString], and empty lines
    once they are used up. *)
Definition typed (lines : list string) (n : nat) : string := nth n lines "".

(** ** The uploads *)

Section Uploads.
Context `{LMSWorld}.

(** The uploads of [files] one after the other when each of them
    succeeds: the identifiers the server returned, in this order, and the
    state after the last upload. *)
Fixpoint allUploaded (c : LMSClient) (assignmentID : string) (files : list Resource)
    (st : State) : option (list string * State) :=
  match files with
  | [] => Some ([], st)
  | file :: files' =>
      match inWorld (uploadResource c assignmentID file) st with
      | (Ok resourceID, st') =>
          match allUploaded c assignmentID files' st' with
          | Some (resourceIDs, st'') => Some (resourceID :: resourceIDs, st'')
          | None => None
          end
      | (Err _, _) => None
      end
  end.

End Uploads.
(** * Properties *)

Section RegistryFacts.
Context `{GoRuntime}.

Lemma foldl_storeMapping_lookup (l : list TypeMapping) (m : gmap string TypeMapping) k tm :
  foldl storeMapping m l !! k = Some tm ->
  m !! k = Some tm \/ (tm ∈ l /\ PortableType tm = k).
Proof.
  revert m. induction l as [|x l IH]; intros m Hk; simpl in Hk.
  - by left.
  - apply IH in Hk as [Hk | [Hin Heq]].
    + unfold storeMapping in Hk. apply lookup_insert_Some in Hk as [[<- <-] | [_ Hk]].
      * right. split; [left | done].
      * by left.
    + right. split; [by right | done].
Qed.

(** Every entry of the canonical table comes from the slice literal. *)
Lemma mappings_from_literal k tm :
  mappings NewAssignmentTypeManager !! k = Some tm ->
  tm ∈ directMappings /\ PortableType tm = k.
Proof.
  intros Hk. apply foldl_storeMapping_lookup in Hk as [Hk | Hk]; [|done].
  simpl in Hk. by rewrite lookup_empty in Hk.
Qed.

Lemma aliases_from_literal a t :
  aliases NewAssignmentTypeManager !! a = Some t -> (a, t) ∈ defaultAliases.
Proof. intros Ha. by apply elem_of_list_to_map_2 in Ha. Qed.

Lemma directMappings_resolve :
  Forall (fun tm => resolvesToItself tm /\ LMSType tm <> "") directMappings.
Proof. repeat constructor; discriminate. Qed.

End RegistryFacts.

(** ** Checks on concrete inputs *)

Example ResolveType_trims_and_lowers (rt : GoRuntime) :
  @ResolveType rt NewAssignmentTypeManager " MCQ " =
    Ok (mkTypeMapping "multiple-choice" "multiple-choice" "" "Multiple choice questions" false).
Proof. reflexivity. Qed.

Example ResolveType_unknown (rt : GoRuntime) :
  @ResolveType rt NewAssignmentTypeManager "Crossword" =
    Err "unknown assignment type: Crossword".
Proof. reflexivity. Qed.

Example ConvertToLMSFormat_drag_drop (rt : GoRuntime) :
  @ConvertToLMSFormat rt NewAssignmentTypeManager "dnd" = Ok ("drag-and-drop", "ordering").
Proof. reflexivity. Qed.

Example GetTypeDescription_unknown (rt : GoRuntime) :
  @GetTypeDescription rt NewAssignmentTypeManager "crossword" = "Unknown assignment type".
Proof. reflexivity. Qed.

Example Contains_empty : strings.Contains "quiz" "" = true.
Proof. reflexivity. Qed.

Example TrimSpace_both_ends (rt : GoRuntime) :
  @strings.TrimSpace rt (String "009" (" a b " +:+ String "010" "")) = "a b".
Proof. reflexivity. Qed.

Example Sprintf_x_bytes : fmt.Sprintf_x ["000"%char; "010"%char; "255"%char] = "000aff".
Proof. reflexivity. Qed.

Example validate_complete_multiple_choice :
  @validateAssignmentPackage plainRuntime 0%Z
    (packageOf (assignmentOf "Capitals" "multiple-choice" "" "Pick one" 1 (Some "q")))
  = @ValidationInfo.mk plainRuntime true 0%Z "1.0.0" [] [] 100%Z.
Proof. reflexivity. Qed.

Example validate_matching_without_items :
  @validateAssignmentPackage plainRuntime 0%Z
    (packageOf (assignmentOf "Pairs" "matching" "" "" 0 None))
  = @ValidationInfo.mk plainRuntime false 0%Z "1.0.0"
      ["Matching items are required"]
      ["Assignment description is recommended"; "Assignment should have positive points"]
      55%Z.
Proof. reflexivity. Qed.

(** ** The alias table *)

(** C1, counterexample: ["essay"] is an alias of ["writing-long"], but it is
    also a canonical key, and [ResolveType] looks at the canonical keys
    first: the alias and its target resolve to two different mappings,
    whatever the runtime. *)
Lemma essay_alias_resolves_to_essay_mapping :
  aliases NewAssignmentTypeManager !! "essay" = Some "writing-long" /\
  (forall rt : GoRuntime,
     @ResolveType rt NewAssignmentTypeManager "essay" =
       Ok (mkTypeMapping "essay" "writing-long" ""
             "Essay assignment (mapped to writing-long)" false)) /\
  (forall rt : GoRuntime,
     @ResolveType rt NewAssignmentTypeManager "writing-long" =
       Ok (mkTypeMapping "writing-long" "writing-long" ""
             "Extended writing assignments" false)) /\
  ~ (exists rt : GoRuntime,
       @ResolveType rt NewAssignmentTypeManager "essay" =
       @ResolveType rt NewAssignmentTypeManager "writing-long").
Proof.
  split; [reflexivity|]. split; [reflexivity|]. split; [reflexivity|].
  intros [rt Heq]. discriminate Heq.
Qed.

(** C1, as amended: an alias whose key is not a canonical key (every alias
    but ["essay"]) resolves to the mapping of its target; every alias,
    ["essay"] included, resolves successfully and converts to the same LMS
    type and subtype as its target. *)
Theorem alias_resolves_like_target `{GoRuntime} (a t : string) :
  aliases NewAssignmentTypeManager !! a = Some t ->
  (mappings NewAssignmentTypeManager !! a = None <-> a <> "essay") /\
  (a <> "essay" ->
   ResolveType NewAssignmentTypeManager a = ResolveType NewAssignmentTypeManager t) /\
  ValidatePortableType NewAssignmentTypeManager a = true /\
  ConvertToLMSFormat NewAssignmentTypeManager a =
    ConvertToLMSFormat NewAssignmentTypeManager t.
Proof.
  intros Ha. apply aliases_from_literal in Ha.
  unfold defaultAliases in Ha.
  repeat (apply elem_of_cons in Ha as [[= -> ->] | Ha]);
    try (by apply elem_of_nil in Ha);
    (split; [split; [intros Hm; try discriminate Hm; done | intros Hne; try reflexivity; done]|]);
    (split; [intros Hne; try reflexivity; done|]);
    split; reflexivity.
Qed.

Lemma alias_resolves_like_target_witness :
  aliases NewAssignmentTypeManager !! "mcq" = Some "multiple-choice" /\
  @ResolveType plainRuntime NewAssignmentTypeManager "mcq" =
    @ResolveType plainRuntime NewAssignmentTypeManager "multiple-choice".
Proof.
  split; [reflexivity|].
  apply (@alias_resolves_like_target plainRuntime "mcq" "multiple-choice");
    [reflexivity | discriminate].
Defined.

(** C2, counterexample: ["essay"] is a key of both tables. *)
Lemma essay_is_alias_and_canonical_key :
  aliases NewAssignmentTypeManager !! "essay" = Some "writing-long" /\
  mappings NewAssignmentTypeManager !! "essay" =
    Some (mkTypeMapping "essay" "writing-long" ""
            "Essay assignment (mapped to writing-long)" false).
Proof. split; reflexivity. Qed.

(** C2, as amended: every alias target is a canonical key, and ["essay"] is
    the one alias key that is also a canonical key. *)
Theorem alias_targets_exist_and_collisions :
  (forall a t : string,
     aliases NewAssignmentTypeManager !! a = Some t ->
     is_Some (mappings NewAssignmentTypeManager !! t)) /\
  dom (aliases NewAssignmentTypeManager) ∩ dom (mappings NewAssignmentTypeManager)
    = {["essay"]}.
Proof.
  split.
  - intros a t Ha. apply aliases_from_literal in Ha.
    unfold defaultAliases in Ha.
    repeat (apply elem_of_cons in Ha as [[= -> ->] | Ha]);
      try (by apply elem_of_nil in Ha); by eexists.
  - vm_compute. reflexivity.
Qed.

Lemma alias_targets_exist_and_collisions_witness :
  aliases NewAssignmentTypeManager !! "dnd" = Some "drag-drop-ordering" /\
  is_Some (mappings NewAssignmentTypeManager !! "drag-drop-ordering").
Proof.
  split; [reflexivity|].
  exact (proj1 alias_targets_exist_and_collisions "dnd" "drag-drop-ordering" eq_refl).
Defined.

(** ** Canonical types *)

(** C9: every key [t] of the canonical table resolves, to the mapping
    stored under [t], and converts without error to that mapping's LMS
    type and subtype; the LMS type is not empty. *)
Theorem canonical_type_resolves `{GoRuntime} (t : string) (tm : TypeMapping) :
  mappings NewAssignmentTypeManager !! t = Some tm ->
  ResolveType NewAssignmentTypeManager t = Ok tm /\
  ConvertToLMSFormat NewAssignmentTypeManager t = Ok (LMSType tm, LMSSubtype tm) /\
  LMSType tm <> "".
Proof.
  intros Ht. apply mappings_from_literal in Ht as [Hin <-].
  pose proof directMappings_resolve as Hall.
  rewrite Forall_forall in Hall. destruct (Hall _ Hin) as [Hres Hne].
  unfold resolvesToItself in Hres. unfold ConvertToLMSFormat. rewrite Hres. done.
Qed.

Lemma canonical_type_resolves_witness :
  @ConvertToLMSFormat plainRuntime NewAssignmentTypeManager "drag-drop-labeling"
    = Ok ("drag-and-drop", "labeling").
Proof.
  exact (proj1 (proj2 (@canonical_type_resolves plainRuntime "drag-drop-labeling"
    (mkTypeMapping "drag-drop-labeling" "drag-and-drop" "labeling"
       "Drag and drop labeling" false) eq_refl))).
Defined.

(** ** Suggestions *)

Section UniqueLoop.

Lemma isSeen_insert seen x s :
  isSeen (<[x := true]> seen) s <-> x = s \/ isSeen seen s.
Proof.
  unfold isSeen. destruct (decide (x = s)) as [->|Hne].
  - rewrite lookup_insert_eq. simpl. tauto.
  - rewrite lookup_insert_ne by done. tauto.
Qed.

Lemma uniqueLoop_all_seen seen l :
  (forall s, s ∈ l -> isSeen seen s) -> uniqueLoop seen l = [].
Proof.
  induction l as [|x l IH]; intros Hl; simpl; [done|].
  assert (isSeen seen x) as Hx by (apply Hl; left).
  unfold isSeen in Hx. rewrite Hx. apply IH. intros s Hs. apply Hl. by right.
Qed.

(** The loop returns a duplicate-free prefix unchanged and drops what
    follows it when all of that was already met. *)
Lemma uniqueLoop_NoDup_prefix l : forall seen l',
  NoDup l ->
  (forall s, s ∈ l -> ~ isSeen seen s) ->
  (forall s, s ∈ l' -> s ∈ l \/ isSeen seen s) ->
  uniqueLoop seen (l ++ l') = l.
Proof.
  induction l as [|x l IH]; intros seen l' Hnd Hfresh Hl'; simpl.
  - apply uniqueLoop_all_seen. intros s Hs.
    destruct (Hl' s Hs) as [Hin|?]; [by apply elem_of_nil in Hin | done].
  - apply NoDup_cons in Hnd as [Hx Hnd].
    assert (default false (seen !! x) = false) as ->.
    { specialize (Hfresh x (list_elem_of_here _ _)). unfold isSeen in Hfresh.
      by destruct (default false (seen !! x)). }
    f_equal. apply IH; [done | |].
    + intros s Hs Hseen. apply isSeen_insert in Hseen as [<-|Hseen]; [done|].
      apply (Hfresh s); [by right | done].
    + intros s Hs. rewrite isSeen_insert.
      destruct (Hl' s Hs) as [[->|Hin]%elem_of_cons | Hseen]; auto.
Qed.

Lemma uniqueLoop_elem_of l : forall seen s,
  s ∈ uniqueLoop seen l <-> s ∈ l /\ ~ isSeen seen s.
Proof.
  induction l as [|x l IH]; intros seen s; simpl.
  - split; [by intros ?%elem_of_nil | by intros [?%elem_of_nil _]].
  - destruct (default false (seen !! x)) eqn:Hx.
    + rewrite IH, elem_of_cons. split; [tauto|].
      intros [[->|Hin] Hns]; [|done]. by destruct Hns.
    + rewrite elem_of_cons, IH, elem_of_cons, isSeen_insert. split.
      * intros [->|[Hin Hns]].
        -- split; [by left|]. unfold isSeen. by rewrite Hx.
        -- split; [by right|]. tauto.
      * intros [[->|Hin] Hns]; [by left|].
        destruct (decide (s = x)) as [->|Hne]; [by left|]. right.
        split; [done|]. intros [Heq|Hseen]; [by subst | done].
Qed.

Lemma uniqueLoop_NoDup l : forall seen, NoDup (uniqueLoop seen l).
Proof.
  induction l as [|x l IH]; intros seen; simpl; [constructor|].
  destruct (default false (seen !! x)) eqn:Hx; [apply IH|].
  apply NoDup_cons. split; [|apply IH].
  rewrite uniqueLoop_elem_of, isSeen_insert. tauto.
Qed.

Lemma not_isSeen_empty s : ~ isSeen ∅ s.
Proof. unfold isSeen. by rewrite lookup_empty. Qed.

End UniqueLoop.

Lemma literalOrder_range : range_order (mappings NewAssignmentTypeManager) literalOrder.
Proof.
  unfold range_order.
  assert (mappings NewAssignmentTypeManager = list_to_map literalOrder) as ->
    by (vm_compute; reflexivity).
  symmetry. apply map_to_list_to_map.
  apply (bool_decide_unpack _). vm_compute. exact I.
Qed.

Lemma reverseOrder_range : range_order (mappings NewAssignmentTypeManager) reverseOrder.
Proof.
  unfold range_order, reverseOrder. rewrite reverse_Permutation. apply literalOrder_range.
Qed.

Lemma defaultAliases_range : range_order (aliases NewAssignmentTypeManager) defaultAliases.
Proof.
  unfold range_order.
  change (aliases NewAssignmentTypeManager) with (list_to_map defaultAliases : gmap string string).
  symmetry. apply map_to_list_to_map.
  apply (bool_decide_unpack _). vm_compute. exact I.
Qed.

(** C7, counterexample: the order of the result is the order of the
    [range] over the map. Two calls that visit [atm.mappings] in two
    different orders return the five types in two different orders. *)
Lemma suggestions_order_not_stable :
  range_order (mappings NewAssignmentTypeManager) literalOrder /\
  range_order (mappings NewAssignmentTypeManager) reverseOrder /\
  range_order (aliases NewAssignmentTypeManager) defaultAliases /\
  (forall rt : GoRuntime,
     @GetSuggestedTypes rt literalOrder defaultAliases "drag" =
       [ "drag-drop-ordering"; "drag-drop-categorization"; "drag-drop-fill-blank";
         "drag-drop-labeling"; "drag-drop-image-caption" ]) /\
  (forall rt : GoRuntime,
     @GetSuggestedTypes rt reverseOrder defaultAliases "drag" =
       [ "drag-drop-image-caption"; "drag-drop-labeling"; "drag-drop-fill-blank";
         "drag-drop-categorization"; "drag-drop-ordering" ]) /\
  ~ (exists rt : GoRuntime,
       @GetSuggestedTypes rt literalOrder defaultAliases "drag" =
       @GetSuggestedTypes rt reverseOrder defaultAliases "drag").
Proof.
  split; [apply literalOrder_range|]. split; [apply reverseOrder_range|].
  split; [apply defaultAliases_range|].
  split; [intros rt; vm_compute; reflexivity|].
  split; [intros rt; vm_compute; reflexivity|].
  intros [rt Heq]. vm_compute in Heq. discriminate Heq.
Qed.

Section Suggestions.
Context `{GoRuntime}.

Lemma GetSuggestedTypes_NoDup morder aorder input :
  NoDup (GetSuggestedTypes morder aorder input).
Proof. apply uniqueLoop_NoDup. Qed.

(** What is suggested: the canonical keys that match, and the targets of
    the aliases that match. *)
Lemma GetSuggestedTypes_elem_of morder aorder input s :
  s ∈ GetSuggestedTypes morder aorder input <->
  (exists tm, (s, tm) ∈ morder /\ matches (strings.ToLower input) s = true) \/
  (exists a, (a, s) ∈ aorder /\ matches (strings.ToLower input) a = true).
Proof.
  unfold GetSuggestedTypes.
  rewrite uniqueLoop_elem_of, elem_of_app, !list_elem_of_fmap. split.
  - intros [[([k tm] & -> & [Hm Hin]%list_elem_of_filter)
            | ([a t] & -> & [Hm Hin]%list_elem_of_filter)] _]; simpl in *; eauto.
  - intros [(tm & Hin & Hm) | (a & Hin & Hm)]; (split; [|apply not_isSeen_empty]).
    + left. exists (s, tm). split; [done|]. by apply list_elem_of_filter.
    + right. exists (a, s). split; [done|]. by apply list_elem_of_filter.
Qed.

Lemma GetSuggestedTypes_nil morder aorder input :
  GetSuggestedTypes morder aorder input = [] <->
  (forall k tm, (k, tm) ∈ morder -> matches (strings.ToLower input) k = false) /\
  (forall a t, (a, t) ∈ aorder -> matches (strings.ToLower input) a = false).
Proof.
  split.
  - intros Hnil. split.
    + intros k tm Hin. destruct (matches _ k) eqn:Hk; [|done].
      assert (k ∈ GetSuggestedTypes morder aorder input) as Hs
        by (apply GetSuggestedTypes_elem_of; eauto).
      rewrite Hnil in Hs. by apply elem_of_nil in Hs.
    + intros a t Hin. destruct (matches _ a) eqn:Hk; [|done].
      assert (t ∈ GetSuggestedTypes morder aorder input) as Hs
        by (apply GetSuggestedTypes_elem_of; eauto).
      rewrite Hnil in Hs. by apply elem_of_nil in Hs.
  - intros [Hm Ha]. apply elem_of_nil_inv. intros s Hs.
    apply GetSuggestedTypes_elem_of in Hs as [(tm & Hin & Hk) | (a & Hin & Hk)].
    + rewrite (Hm _ _ Hin) in Hk. discriminate.
    + rewrite (Ha _ _ Hin) in Hk. discriminate.
Qed.

Lemma range_order_elem_of {V} (m : gmap string V) order k v :
  range_order m order -> (k, v) ∈ order <-> m !! k = Some v.
Proof. unfold range_order. intros ->. apply elem_of_map_to_list. Qed.

Lemma list_filter_iff_in {A} (P Q : A -> Prop)
    `{forall x, Decision (P x)} `{forall x, Decision (Q x)} (l : list A) :
  (forall x, x ∈ l -> P x <-> Q x) -> filter P l = filter Q l.
Proof.
  induction l as [|x l IH]; intros Hl; [done|].
  rewrite !filter_cons.
  assert (P x <-> Q x) as Hx by (apply Hl; left).
  rewrite IH by (intros y Hy; apply Hl; by right).
  destruct (decide (P x)), (decide (Q x)); tauto || done.
Qed.

(** The canonical keys that match ["drag"] are the five types of the
    family. *)
Lemma matches_drag_iff k tm :
  mappings NewAssignmentTypeManager !! k = Some tm ->
  matches "drag" k = true <-> k ∈ dragDropTypes.
Proof.
  intros Hk. apply mappings_from_literal in Hk as [Hin <-].
  assert (Forall (fun tm => matches "drag" (PortableType tm) =
                            bool_decide (PortableType tm ∈ dragDropTypes)) directMappings)
    as Hall by (apply (bool_decide_unpack _); by vm_compute).
  rewrite Forall_forall in Hall. rewrite (Hall _ Hin). apply bool_decide_eq_true.
Qed.

(** For ["drag"] the result is the matching keys in the order of the
    [range] over [atm.mappings]: the one alias that matches, ["drag-drop"],
    adds a type that is already there. *)
Lemma drag_suggestions_in_range_order morder aorder :
  range_order (mappings NewAssignmentTypeManager) morder ->
  range_order (aliases NewAssignmentTypeManager) aorder ->
  GetSuggestedTypes morder aorder "drag" =
    (filter (fun kv : string * TypeMapping => kv.1 ∈ dragDropTypes) morder).*1.
Proof.
  intros Hm Ha. unfold GetSuggestedTypes.
  change (strings.ToLower "drag") with "drag".
  set (P := fun kv : string * TypeMapping => matches "drag" kv.1 = true).
  set (Q := fun kv : string * string => matches "drag" kv.1 = true).
  assert (filter P morder = filter (fun kv : string * TypeMapping => kv.1 ∈ dragDropTypes) morder)
    as HP.
  { apply list_filter_iff_in. intros [k tm] Hin. simpl.
    apply matches_drag_iff with tm. by apply (range_order_elem_of _ _ _ _ Hm). }
  assert ((filter P morder).*1 ≡ₚ dragDropTypes) as Hkeys.
  { assert (morder ≡ₚ literalOrder) as ->
      by (rewrite Hm; symmetry; apply literalOrder_range).
    by vm_compute. }
  assert ((filter Q aorder).*2 = ["drag-drop-ordering"]) as ->.
  { assert (filter Q aorder ≡ₚ [("drag-drop", "drag-drop-ordering")]) as Hq.
    { assert (aorder ≡ₚ defaultAliases) as ->
        by (rewrite Ha; symmetry; apply defaultAliases_range).
      by vm_compute. }
    apply Permutation_singleton_r in Hq. by rewrite Hq. }
  rewrite <- HP. apply uniqueLoop_NoDup_prefix.
  - rewrite Hkeys. apply (bool_decide_unpack _). by vm_compute.
  - intros s _. apply not_isSeen_empty.
  - intros s ->%list_elem_of_singleton. left. rewrite Hkeys.
    apply (bool_decide_unpack _). by vm_compute.
Qed.

(** C7, as amended: whatever the orders in which the two [range] loops
    visit the maps, [GetSuggestedTypes("drag")] is the five drag-and-drop
    types, each once, in the order in which the first loop met them; for
    every input the result has no duplicates, and it is empty exactly when
    neither a canonical key nor an alias matches the lower-cased input by
    containment in one of the two directions. *)
Theorem GetSuggestedTypes_drag_and_empty
    (morder : list (string * TypeMapping)) (aorder : list (string * string)) :
  range_order (mappings NewAssignmentTypeManager) morder ->
  range_order (aliases NewAssignmentTypeManager) aorder ->
  GetSuggestedTypes morder aorder "drag" ≡ₚ dragDropTypes /\
  GetSuggestedTypes morder aorder "drag" =
    (filter (fun kv : string * TypeMapping => kv.1 ∈ dragDropTypes) morder).*1 /\
  (forall input : string,
     NoDup (GetSuggestedTypes morder aorder input) /\
     (GetSuggestedTypes morder aorder input = [] <->
      (forall k tm, mappings NewAssignmentTypeManager !! k = Some tm ->
         strings.Contains k (strings.ToLower input) = false /\
         strings.Contains (strings.ToLower input) k = false) /\
      (forall a t, aliases NewAssignmentTypeManager !! a = Some t ->
         strings.Contains a (strings.ToLower input) = false /\
         strings.Contains (strings.ToLower input) a = false))).
Proof.
  intros Hm Ha. split; [|split].
  - rewrite (drag_suggestions_in_range_order _ _ Hm Ha).
    assert (morder ≡ₚ literalOrder) as ->
      by (rewrite Hm; symmetry; apply literalOrder_range).
    by vm_compute.
  - apply drag_suggestions_in_range_order; done.
  - intros input. split; [apply GetSuggestedTypes_NoDup|].
    rewrite GetSuggestedTypes_nil. unfold matches.
    split; intros [H1 H2]; split.
    + intros k tm Hk. apply orb_false_iff, (H1 k tm), (range_order_elem_of _ _ _ _ Hm), Hk.
    + intros a t Hk. apply orb_false_iff, (H2 a t), (range_order_elem_of _ _ _ _ Ha), Hk.
    + intros k tm Hk. apply orb_false_iff, (H1 k tm), (range_order_elem_of _ _ _ _ Hm), Hk.
    + intros a t Hk. apply orb_false_iff, (H2 a t), (range_order_elem_of _ _ _ _ Ha), Hk.
Qed.

End Suggestions.

Lemma GetSuggestedTypes_drag_and_empty_witness :
  @GetSuggestedTypes plainRuntime reverseOrder defaultAliases "drag" ≡ₚ dragDropTypes /\
  @GetSuggestedTypes plainRuntime reverseOrder defaultAliases "xyz" = [].
Proof.
  destruct (@GetSuggestedTypes_drag_and_empty plainRuntime reverseOrder defaultAliases
              reverseOrder_range defaultAliases_range) as [Hdrag Hall].
  split; [exact Hdrag|]. vm_compute. reflexivity.
Defined.

(** ** The validator *)

Section ValidatorFacts.
Context `{GoRuntime}.
Import ValidationInfo.

(** The deductions, case by case. *)
Ltac validator_cases pkg :=
  unfold validateAssignmentPackage;
  generalize (AssignmentPackage.Assignment pkg); intros a;
  destruct (decide (Assignment.Title a = "")) as [Htitle|Htitle];
  destruct (decide (Assignment.Type_ a = "")) as [Htype|Htype];
  destruct (decide (Assignment.Type_ a = "multiple-choice")) as [Hmc|Hmc];
  destruct (decide (Assignment.Type_ a = "matching")) as [Hma|Hma];
  destruct (Assignment.Questions a) as [q|];
  destruct (decide (Assignment.Description a = "")) as [Hdesc|Hdesc];
  destruct (Assignment.Points a <=? 0)%Z;
  cbn [recordError recordWarning IsValid Errors Warnings Score];
  try (exfalso; congruence).

(** [IsValid] is cleared exactly when an error is appended. *)
Lemma validate_IsValid_iff_no_error now pkg :
  IsValid (validateAssignmentPackage now pkg) = false <->
  Errors (validateAssignmentPackage now pkg) <> [].
Proof. validator_cases pkg; (split; [intros _; discriminate | done]) || (split; [discriminate | done]). Qed.

Lemma validate_Score_bounds now pkg :
  (35 <= Score (validateAssignmentPackage now pkg) <= 100)%Z.
Proof. validator_cases pkg; lia. Qed.

(** C3: a package with no title and no type is invalid, scores at most 60
    and carries exactly the two errors for the title and the type; and for
    every package [IsValid] is false exactly when the list of errors is not
    empty. *)
Theorem validate_empty_title_and_type (now : Time) (pkg : AssignmentPackage) :
  (Assignment.Title (AssignmentPackage.Assignment pkg) = "" ->
   Assignment.Type_ (AssignmentPackage.Assignment pkg) = "" ->
   IsValid (validateAssignmentPackage now pkg) = false /\
   (Score (validateAssignmentPackage now pkg) <= 60)%Z /\
   Errors (validateAssignmentPackage now pkg) =
     ["Assignment title is required"; "Assignment type is required"]) /\
  (IsValid (validateAssignmentPackage now pkg) = false <->
   Errors (validateAssignmentPackage now pkg) <> []).
Proof.
  split; [|apply validate_IsValid_iff_no_error].
  validator_cases pkg; intros Ht Hty; try done; (split; [done|]); (split; [lia | done]).
Qed.

(** C4, as amended: the score stays between 35 and 100. The deduction for
    a missing type and the deduction for missing questions cannot both
    apply (the second is for the types ["multiple-choice"] and
    ["matching"] only), so at most 20 + 30 + 5 + 10 is taken off. *)
Theorem validate_Score_never_negative (now : Time) (pkg : AssignmentPackage) :
  (35 <= Score (validateAssignmentPackage now pkg) <= 100)%Z /\
  (length (Errors (validateAssignmentPackage now pkg)) <= 2)%nat.
Proof. split; [apply validate_Score_bounds | validator_cases pkg; simpl; lia]. Qed.

End ValidatorFacts.

Lemma validate_empty_title_and_type_witness :
  ValidationInfo.IsValid
    (@validateAssignmentPackage plainRuntime 0%Z (packageOf (assignmentOf "" "" "" "" 0 None)))
    = false /\
  ValidationInfo.Score
    (@validateAssignmentPackage plainRuntime 0%Z (packageOf (assignmentOf "" "" "" "" 0 None)))
    = 45%Z.
Proof.
  split; [|reflexivity].
  apply (proj1 (@validate_empty_title_and_type plainRuntime 0%Z
                  (packageOf (assignmentOf "" "" "" "" 0 None))));
    reflexivity.
Defined.

(** C4, counterexample: no package has a negative score. The lowest score,
    35, is that of an untitled multiple-choice package without questions,
    description and points. *)
Lemma validate_no_negative_score :
  ValidationInfo.Score
    (@validateAssignmentPackage plainRuntime 0%Z
       (packageOf (assignmentOf "" "multiple-choice" "" "" 0 None))) = 35%Z /\
  ~ (exists (rt : GoRuntime) (now : Time) (pkg : AssignmentPackage),
       (ValidationInfo.Score (validateAssignmentPackage now pkg) < 0)%Z).
Proof.
  split; [reflexivity|].
  intros (rt & now & pkg & Hneg).
  pose proof (validate_Score_bounds now pkg). lia.
Qed.

(** ** The wire record *)

Section ConverterFacts.
Context `{GoRuntime}.

Lemma lookup_setIfPresent_ne {A} key (f : A -> WireValue) p m k :
  key <> k -> setIfPresent key f p m !! k = m !! k.
Proof. intros Hne. destruct p; simpl; [by apply lookup_insert_ne | done]. Qed.

Lemma convertToLMSFormat_type_subtype g now pkg :
  let atm := (GetTypeManager g).1 in
  let a := AssignmentPackage.Assignment pkg in
  (convertToLMSFormat g now pkg).1 !! "type" = Some (WString (wireTypes atm a).1) /\
  (convertToLMSFormat g now pkg).1 !! "subtype" = Some (WString (wireTypes atm a).2).
Proof.
  unfold convertToLMSFormat, wireTypes.
  destruct (GetTypeManager g) as [atm g']. cbn [fst snd].
  destruct (ConvertToLMSFormat atm _) as [[lmsType lmsSubtype]|e]; cbn [fst snd];
    rewrite !lookup_setIfPresent_ne by done; split; vm_compute; reflexivity.
Qed.

(** C5: when the type of the package does not resolve, the conversion
    still returns its record (it is a total function), with the type and
    the subtype of the package passed through under ["type"] and
    ["subtype"]. *)
Theorem convertToLMSFormat_unresolved_type
    (g : option AssignmentTypeManager) (now : Time) (pkg : AssignmentPackage) (e : string) :
  ResolveType (GetTypeManager g).1
    (Assignment.Type_ (AssignmentPackage.Assignment pkg)) = Err e ->
  (convertToLMSFormat g now pkg).1 !! "type" =
    Some (WString (Assignment.Type_ (AssignmentPackage.Assignment pkg))) /\
  (convertToLMSFormat g now pkg).1 !! "subtype" =
    Some (WString (Assignment.Subtype (AssignmentPackage.Assignment pkg))).
Proof.
  intros Hres.
  destruct (convertToLMSFormat_type_subtype g now pkg) as [Hty Hsub].
  rewrite Hty, Hsub. unfold wireTypes, ConvertToLMSFormat. by rewrite Hres.
Qed.

(** C10: when the type of the package resolves, ["type"] and ["subtype"]
    are the LMS type and subtype of the mapping; the subtype the package
    declares is not used, so a type whose mapping has no subtype is sent
    with the empty subtype. *)
Theorem convertToLMSFormat_resolved_type
    (g : option AssignmentTypeManager) (now : Time) (pkg : AssignmentPackage)
    (mapping : TypeMapping) :
  ResolveType (GetTypeManager g).1
    (Assignment.Type_ (AssignmentPackage.Assignment pkg)) = Ok mapping ->
  (convertToLMSFormat g now pkg).1 !! "type" = Some (WString (LMSType mapping)) /\
  (convertToLMSFormat g now pkg).1 !! "subtype" = Some (WString (LMSSubtype mapping)).
Proof.
  intros Hres.
  destruct (convertToLMSFormat_type_subtype g now pkg) as [Hty Hsub].
  rewrite Hty, Hsub. unfold wireTypes, ConvertToLMSFormat. by rewrite Hres.
Qed.

End ConverterFacts.

Lemma convertToLMSFormat_unresolved_type_witness :
  (@convertToLMSFormat plainRuntime None 0%Z
     (packageOf (assignmentOf "T" "crossword" "grid" "" 1 None))).1 !! "type" =
    Some (@WString plainRuntime "crossword") /\
  (@convertToLMSFormat plainRuntime None 0%Z
     (packageOf (assignmentOf "T" "crossword" "grid" "" 1 None))).1 !! "subtype" =
    Some (@WString plainRuntime "grid").
Proof.
  apply (@convertToLMSFormat_unresolved_type plainRuntime None 0%Z
           (packageOf (assignmentOf "T" "crossword" "grid" "" 1 None))
           "unknown assignment type: crossword").
  reflexivity.
Defined.

(** A package of the resolvable type ["essay"], which has no subtype in the
    LMS, that declares the subtype ["argumentative"]: the record carries
    the empty subtype. *)
Lemma convertToLMSFormat_resolved_type_witness :
  (@convertToLMSFormat plainRuntime None 0%Z
     (packageOf (assignmentOf "T" "essay" "argumentative" "" 1 None))).1 !! "type" =
    Some (@WString plainRuntime "writing-long") /\
  (@convertToLMSFormat plainRuntime None 0%Z
     (packageOf (assignmentOf "T" "essay" "argumentative" "" 1 None))).1 !! "subtype" =
    Some (@WString plainRuntime "").
Proof.
  apply (@convertToLMSFormat_resolved_type plainRuntime None 0%Z
           (packageOf (assignmentOf "T" "essay" "argumentative" "" 1 None))
           (mkTypeMapping "essay" "writing-long" ""
              "Essay assignment (mapped to writing-long)" false)).
  reflexivity.
Defined.

(** ** The content hash *)



Lemma length_string_of_list_ascii (l : list ascii) :
  String.length (string_of_list_ascii l) = length l.
Proof. induction l as [|c l IH]; simpl; [done | by rewrite IH]. Qed.







Section HasherFacts.
Context `{GoDigest}.





End HasherFacts.


(** ** Batch synchronisation *)

Section BatchFacts.
Context `{LMSWorld}.
Import BatchImportResult.

Lemma outcomes_length c packages : forall st,
  length (outcomes c packages st) = length packages.
Proof.
  induction packages as [|pkg rest IH]; intros st; simpl; [done|].
  destruct (SyncAssignment c pkg st) as [o st']. simpl. by rewrite IH.
Qed.

(** The outcome at position [i] is that of the package at position [i],
    synchronised after the [i] packages before it. *)
Lemma outcomes_lookup c packages : forall st i pkg,
  packages !! i = Some pkg ->
  outcomes c packages st !! i =
    Some (SyncAssignment c pkg (stateAfter c (take i packages) st)).1.
Proof.
  induction packages as [|p rest IH]; intros st i pkg Hi; [done|].
  destruct i as [|i]; simpl in *.
  - injection Hi as ->. by destruct (SyncAssignment c pkg st).
  - unfold stateAfter. simpl. destruct (SyncAssignment c p st) as [o st'] eqn:Hp.
    simpl. by apply IH.
Qed.

(** The loop adds to the report the entries and the counts of the
    outcomes, and nothing else. *)
Lemma foldl_batchStep c packages : forall result st,
  foldl (batchStep c) (result, st) packages =
    ({| BatchID := BatchID result;
        TotalCount := TotalCount result;
        SuccessCount :=
          SuccessCount result +
          Z.of_nat (length (filter succeeded (outcomes c packages st)));
        FailureCount :=
          FailureCount result +
          Z.of_nat (length (filter (fun o => ~ succeeded o) (outcomes c packages st)));
        Results := Results result ++ (recorded <$> outcomes c packages st);
        StartedAt := StartedAt result;
        CompletedAt := CompletedAt result |},
     stateAfter c packages st).
Proof.
  induction packages as [|pkg rest IH]; intros result st.
  - destruct result. cbn. rewrite app_nil_r, !Z.add_0_r. done.
  - cbn [foldl outcomes]. unfold stateAfter. cbn [foldl]. fold (stateAfter c rest).
    unfold batchStep at 2.
    destruct (SyncAssignment c pkg st) as [[importResult|err] st']; cbn [snd];
      rewrite IH; cbn [BatchID TotalCount SuccessCount FailureCount Results StartedAt
                       CompletedAt fmap list_fmap recorded];
      f_equal; f_equal; rewrite <- ?app_assoc; try done.
    all: try (rewrite !filter_cons_True by done); cbn [length]; lia.
Qed.

(** C8: [BatchSyncAssignments] returns a report and no error. The report
    has one entry for each package, in the order of the packages: the
    result of [SyncAssignment] when it succeeded, an entry with the status
    ["failed"] and the message of the error when it failed; every package is
    synchronised, after the ones before it, whatever their outcomes.
    [TotalCount] is the number of packages, [SuccessCount] the number of
    successes, [FailureCount] the number of failures, and they add up. *)
Theorem BatchSyncAssignments_report
    (c : LMSClient) (packages : list AssignmentPackage) (st : State) :
  exists (batch : BatchImportResult) (st' : State),
    BatchSyncAssignments c packages st = (Ok batch, st') /\
    Results batch = recorded <$> outcomes c packages (loopStart st) /\
    length (Results batch) = length packages /\
    (forall i pkg, packages !! i = Some pkg ->
       Results batch !! i =
         Some (recorded
                 (SyncAssignment c pkg (stateAfter c (take i packages) (loopStart st))).1)) /\
    (forall err, ImportResult.Status (recorded (Err err)) = "failed" /\
                 ImportResult.Message (recorded (Err err)) = err) /\
    TotalCount batch = Z.of_nat (length packages) /\
    SuccessCount batch =
      Z.of_nat (length (filter succeeded (outcomes c packages (loopStart st)))) /\
    FailureCount batch =
      Z.of_nat (length (filter (fun o => ~ succeeded o) (outcomes c packages (loopStart st)))) /\
    (SuccessCount batch + FailureCount batch)%Z = TotalCount batch.
Proof.
  unfold BatchSyncAssignments, loopStart.
  destruct (uuid_New_String (world st)) as [batchID w1]. cbn [snd].
  destruct (time_Now w1) as [startedAt w2]. cbn [snd].
  rewrite foldl_batchStep. cbn [BatchID TotalCount SuccessCount FailureCount Results StartedAt CompletedAt].
  set (st0 := {| globalTypeManager := globalTypeManager st; world := w2 |}).
  destruct (time_Now (world (stateAfter c packages st0))) as [completedAt w3].
  eexists _, _. split; [reflexivity|].
  cbn [BatchID TotalCount SuccessCount FailureCount Results StartedAt CompletedAt app].
  split; [done|].
  split; [by rewrite length_fmap, outcomes_length|].
  split.
  { intros i pkg Hi. rewrite list_lookup_fmap.
    by rewrite (outcomes_lookup c packages _ i pkg Hi). }
  split; [done|].
  split; [done|].
  split; [lia|]. split; [lia|].
  pose proof (Permutation_length (filter_app_complement succeeded (outcomes c packages st0)))
    as Hlen.
  rewrite length_app, outcomes_length in Hlen. lia.
Qed.

End BatchFacts.

Lemma BatchSyncAssignments_report_witness :
  exists batch st',
    @BatchSyncAssignments plainRuntime secondRequestFails
      exampleClient threePackages startState = (Ok batch, st') /\
    BatchImportResult.TotalCount batch = 3%Z /\
    BatchImportResult.SuccessCount batch = 2%Z /\
    BatchImportResult.FailureCount batch = 1%Z /\
    ImportResult.Status <$> BatchImportResult.Results batch =
      ["success"; "failed"; "success"].
Proof.
  destruct (@BatchSyncAssignments_report plainRuntime secondRequestFails
              exampleClient threePackages startState)
    as (batch & st' & Hrun & Hres & _ & _ & _ & Htot & Hok & Hfail & _).
  exists batch, st'. split; [exact Hrun|].
  rewrite Htot, Hok, Hfail, Hres.
  repeat split; vm_compute; reflexivity.
Defined.

(** * Properties of the rest of the code *)

(** ** Normalisation *)

Section StringFacts.

Lemma string_app_cons (c : ascii) (a b : string) :
  String c a +:+ b = String c (a +:+ b).
Proof. reflexivity. Qed.

Lemma string_app_empty_l (s : string) : "" +:+ s = s.
Proof. reflexivity. Qed.

Lemma string_app_assoc (a b c : string) : (a +:+ b) +:+ c = a +:+ (b +:+ c).
Proof.
  induction a as [|x a IH]; [done|]. rewrite !string_app_cons. by rewrite IH.
Qed.

Lemma string_app_empty_r (s : string) : s +:+ "" = s.
Proof. induction s as [|c s IH]; [done|]. by rewrite string_app_cons, IH. Qed.

Lemma rev_app_spec (s acc : string) :
  String.rev_app s acc = String.rev s +:+ acc.
Proof.
  unfold String.rev. revert acc.
  induction s as [|c s IH]; intros acc; simpl; [done|].
  rewrite (IH (String c acc)), (IH (String c "")). by rewrite string_app_assoc.
Qed.

Lemma rev_cons (c : ascii) (s : string) :
  String.rev (String c s) = String.rev s +:+ String c "".
Proof. unfold String.rev at 1. simpl. apply rev_app_spec. Qed.

Lemma rev_append (a b : string) :
  String.rev (a +:+ b) = String.rev b +:+ String.rev a.
Proof.
  induction a as [|c a IH].
  - by rewrite string_app_empty_l, string_app_empty_r.
  - rewrite string_app_cons, !rev_cons, IH. by rewrite string_app_assoc.
Qed.

Lemma isASCII_app (a b : string) :
  strings.isASCII (a +:+ b) = strings.isASCII a && strings.isASCII b.
Proof.
  induction a as [|c a IH]; [done|].
  rewrite ?string_app_cons. simpl. rewrite IH. by rewrite andb_assoc.
Qed.

Lemma isASCII_rev (s : string) : strings.isASCII (String.rev s) = strings.isASCII s.
Proof.
  induction s as [|c s IH]; [done|].
  rewrite rev_cons, isASCII_app, IH. simpl. rewrite andb_true_r. apply andb_comm.
Qed.

Lemma isSpaces_app (a b : string) : isSpaces (a +:+ b) = isSpaces a && isSpaces b.
Proof.
  induction a as [|c a IH]; [done|].
  rewrite ?string_app_cons. simpl. rewrite IH. by rewrite andb_assoc.
Qed.

Lemma isSpaces_rev (s : string) : isSpaces (String.rev s) = isSpaces s.
Proof.
  induction s as [|c s IH]; [done|].
  rewrite rev_cons, isSpaces_app, IH. simpl. rewrite andb_true_r. apply andb_comm.
Qed.

Lemma asciiSpace_not_RuneSelf (c : ascii) :
  strings.asciiSpace c = true -> strings.RuneSelf c = false.
Proof. destruct c as [[] [] [] [] [] [] [] []]; by vm_compute. Qed.

Lemma isSpaces_isASCII (s : string) : isSpaces s = true -> strings.isASCII s = true.
Proof.
  induction s as [|c s IH]; simpl; [done|].
  intros [Hc Hs]%andb_true_iff. by rewrite (asciiSpace_not_RuneSelf c Hc), IH.
Qed.

(** [skipSpace] on ASCII text never asks for the Unicode path and leaves
    ASCII text. *)
Lemma skipSpace_ascii (s : string) :
  strings.isASCII s = true ->
  (strings.skipSpace s).2 = false /\ strings.isASCII (strings.skipSpace s).1 = true.
Proof.
  induction s as [|c s IH]; simpl; [done|].
  intros [Hc Hs]%andb_true_iff. apply negb_true_iff in Hc. rewrite Hc.
  destruct (strings.asciiSpace c); [by apply IH|].
  simpl. by rewrite Hc, Hs.
Qed.

Lemma skipSpace_spaces_app (ws t : string) :
  isSpaces ws = true -> strings.skipSpace (ws +:+ t) = strings.skipSpace t.
Proof.
  induction ws as [|c ws IH]; [done|]. simpl.
  intros [Hc Hs]%andb_true_iff. rewrite ?string_app_cons. simpl.
  by rewrite (asciiSpace_not_RuneSelf c Hc), Hc, IH.
Qed.

Lemma skipSpace_spaces (ws : string) :
  isSpaces ws = true -> strings.skipSpace ws = ("", false).
Proof.
  intros Hs. rewrite <- (string_app_empty_r ws). by rewrite skipSpace_spaces_app.
Qed.

Lemma skipSpace_app (a b : string) :
  strings.isASCII a = true ->
  (strings.skipSpace (a +:+ b)).1 =
    if decide ((strings.skipSpace a).1 = "") then (strings.skipSpace b).1
    else (strings.skipSpace a).1 +:+ b.
Proof.
  induction a as [|c a IH]; [done|]. simpl.
  intros [Hc Ha]%andb_true_iff. apply negb_true_iff in Hc.
  rewrite ?string_app_cons. simpl. rewrite Hc.
  destruct (strings.asciiSpace c); [by apply IH|]. done.
Qed.

(** On ASCII text [TrimSpace] is the two loops and nothing else. *)
Lemma TrimSpace_ascii `{GoRuntime} (s : string) :
  strings.isASCII s = true ->
  strings.TrimSpace s =
    String.rev (strings.skipSpace (String.rev (strings.skipSpace s).1)).1 /\
  strings.isASCII (strings.TrimSpace s) = true.
Proof.
  intros Hs. unfold strings.TrimSpace.
  destruct (skipSpace_ascii s Hs) as [Hflag Hascii].
  destruct (strings.skipSpace s) as [s1 slow]. simpl in *. subst slow.
  assert (strings.isASCII (String.rev s1) = true) as Hrev by by rewrite isASCII_rev.
  destruct (skipSpace_ascii _ Hrev) as [Hflag' Hascii'].
  destruct (strings.skipSpace (String.rev s1)) as [r slow']. simpl in *. subst slow'.
  split; [done|]. by rewrite isASCII_rev.
Qed.

Lemma TrimSpace_padding `{GoRuntime} (ws1 s ws2 : string) :
  strings.isASCII s = true -> isSpaces ws1 = true -> isSpaces ws2 = true ->
  strings.TrimSpace (ws1 +:+ s +:+ ws2) = strings.TrimSpace s.
Proof.
  intros Hs H1 H2.
  assert (strings.isASCII (ws1 +:+ s +:+ ws2) = true) as Hall.
  { rewrite !isASCII_app, Hs. by rewrite !isSpaces_isASCII. }
  rewrite (proj1 (TrimSpace_ascii _ Hall)), (proj1 (TrimSpace_ascii _ Hs)).
  rewrite skipSpace_spaces_app by done. rewrite skipSpace_app by done.
  case_decide as Hempty.
  - rewrite Hempty, (skipSpace_spaces ws2 H2). reflexivity.
  - rewrite rev_append, skipSpace_spaces_app; [done|]. by rewrite isSpaces_rev.
Qed.

Lemma lowerByte_RuneSelf (c : ascii) :
  strings.RuneSelf (strings.lowerByte c) = strings.RuneSelf c.
Proof. destruct c as [[] [] [] [] [] [] [] []]; by vm_compute. Qed.

Lemma lowerByte_asciiSpace (c : ascii) :
  strings.asciiSpace (strings.lowerByte c) = strings.asciiSpace c.
Proof. destruct c as [[] [] [] [] [] [] [] []]; by vm_compute. Qed.

Lemma mapBytes_app f (a b : string) :
  strings.mapBytes f (a +:+ b) = strings.mapBytes f a +:+ strings.mapBytes f b.
Proof.
  induction a as [|c a IH]; [done|]. rewrite ?string_app_cons. simpl.
  by rewrite IH, ?string_app_cons.
Qed.

Lemma mapBytes_rev f (s : string) :
  strings.mapBytes f (String.rev s) = String.rev (strings.mapBytes f s).
Proof.
  induction s as [|c s IH]; [done|].
  simpl. by rewrite !rev_cons, mapBytes_app, IH.
Qed.

Lemma isASCII_lower (s : string) :
  strings.isASCII (strings.mapBytes strings.lowerByte s) = strings.isASCII s.
Proof.
  induction s as [|c s IH]; simpl; [done|]. by rewrite lowerByte_RuneSelf, IH.
Qed.

Lemma skipSpace_lower (s : string) :
  strings.skipSpace (strings.mapBytes strings.lowerByte s) =
    (strings.mapBytes strings.lowerByte (strings.skipSpace s).1, (strings.skipSpace s).2).
Proof.
  induction s as [|c s IH]; simpl; [done|].
  rewrite lowerByte_RuneSelf, lowerByte_asciiSpace.
  destruct (strings.RuneSelf c); [done|].
  destruct (strings.asciiSpace c); [by rewrite IH | done].
Qed.

(** On ASCII text the normalised form is the trimmed lower-case text: it
    is a function of the lower-case text. *)
Lemma normalize_ascii `{GoRuntime} (s : string) :
  strings.isASCII s = true ->
  normalize s =
    String.rev (strings.skipSpace (String.rev (strings.skipSpace
      (strings.mapBytes strings.lowerByte s)).1)).1.
Proof.
  intros Hs. unfold normalize, strings.ToLower.
  destruct (TrimSpace_ascii s Hs) as [-> Hascii]. rewrite Hascii.
  rewrite skipSpace_lower. simpl.
  rewrite <- mapBytes_rev, skipSpace_lower. simpl. by rewrite mapBytes_rev.
Qed.

End StringFacts.

(** ** The registry *)

Section RegistryMore.
Context `{GoRuntime}.

Lemma resolved_normalize atm (s s' : string) :
  normalize s = normalize s' ->
  resolved (ResolveType atm s) = resolved (ResolveType atm s').
Proof.
  intros Hn. unfold ResolveType. rewrite Hn.
  destruct (mappings atm !! normalize s'); [done|].
  destruct (aliases atm !! normalize s') as [t|]; [|done].
  by destruct (mappings atm !! t).
Qed.

(** X1: for ASCII input, resolution ignores the case of the letters and
    the ASCII white space around the text: the same mapping comes back, or
    none. *)
Theorem ResolveType_ignores_case_and_padding
    (atm : AssignmentTypeManager) (s s' ws1 ws2 : string) :
  strings.isASCII s = true ->
  strings.isASCII s' = true ->
  strings.mapBytes strings.lowerByte s' = strings.mapBytes strings.lowerByte s ->
  isSpaces ws1 = true ->
  isSpaces ws2 = true ->
  resolved (ResolveType atm (ws1 +:+ s' +:+ ws2)) = resolved (ResolveType atm s) /\
  ValidatePortableType atm (ws1 +:+ s' +:+ ws2) = ValidatePortableType atm s.
Proof.
  intros Hs Hs' Hlow H1 H2.
  assert (normalize (ws1 +:+ s' +:+ ws2) = normalize s) as Hn.
  { unfold normalize at 1. rewrite TrimSpace_padding by done.
    fold (normalize s'). by rewrite !normalize_ascii, Hlow. }
  pose proof (resolved_normalize atm _ _ Hn) as Hres. split; [done|].
  unfold ValidatePortableType.
  by destruct (ResolveType atm (ws1 +:+ s' +:+ ws2)), (ResolveType atm s).
Qed.

End RegistryMore.

Lemma ResolveType_ignores_case_and_padding_witness :
  resolved (@ResolveType plainRuntime NewAssignmentTypeManager
              (String "009" " " +:+ "Drag-Drop" +:+ String "010" "")) =
    Some (mkTypeMapping "drag-drop-ordering" "drag-and-drop" "ordering"
            "Drag and drop ordering" false).
Proof.
  rewrite (proj1 (@ResolveType_ignores_case_and_padding plainRuntime
             NewAssignmentTypeManager "drag-drop" "Drag-Drop"
             (String "009" " ") (String "010" "")
             eq_refl eq_refl eq_refl eq_refl eq_refl)).
  reflexivity.
Defined.

Section Listings.

Lemma range_order_NoDup {V} (m : gmap string V) order :
  range_order m order -> NoDup order.*1.
Proof. unfold range_order. intros ->. apply NoDup_fst_map_to_list. Qed.

(** X2: [GetPortableTypes] returns every canonical key of the manager, each
    once, and nothing else, whatever the order of the [range]. *)
Theorem GetPortableTypes_keys (atm : AssignmentTypeManager)
    (morder : list (string * TypeMapping)) :
  range_order (mappings atm) morder ->
  NoDup (GetPortableTypes morder) /\
  (forall k, k ∈ GetPortableTypes morder <-> is_Some (mappings atm !! k)) /\
  length (GetPortableTypes morder) = size (mappings atm).
Proof.
  intros Hm. unfold GetPortableTypes. split; [by eapply range_order_NoDup|]. split.
  - intros k. rewrite list_elem_of_fmap. split.
    + intros ([k' tm] & -> & Hin). exists tm. by apply (range_order_elem_of _ _ _ _ Hm).
    + intros [tm Hk]. exists (k, tm). split; [done|]. by apply (range_order_elem_of _ _ _ _ Hm).
  - rewrite length_fmap. unfold range_order in Hm. rewrite Hm. apply length_map_to_list.
Qed.

Lemma lmsTypeSet_lookup (l : list (string * TypeMapping)) :
  forall (acc : gmap string bool) x b,
  foldl (fun lmsTypes kv => <[LMSType kv.2 := true]> lmsTypes) acc l !! x = Some b <->
    (exists kv, kv ∈ l /\ LMSType kv.2 = x /\ b = true) \/
    ((forall kv, kv ∈ l -> LMSType kv.2 <> x) /\ acc !! x = Some b).
Proof.
  induction l as [|kv l IH]; intros acc x b; simpl.
  - split.
    + intros Hacc. right. split; [|done]. by intros kv ?%elem_of_nil.
    + intros [(kv & Hin & _) | [_ Hacc]]; [by apply elem_of_nil in Hin | done].
  - rewrite IH. split.
    + intros [(kv' & Hin & Heq & Hb) | [Hnone Hacc]].
      * left. exists kv'. split; [by right | done].
      * apply lookup_insert_Some in Hacc as [[Heq Hb] | [Hne Hacc]].
        -- left. exists kv. split; [left | done].
        -- right. split; [|done]. intros kv' [->|Hin]%elem_of_cons; [done | by apply Hnone].
    + intros [(kv' & [->|Hin]%elem_of_cons & Heq & Hb) | [Hnone Hacc]].
      * destruct (decide (Exists (fun kv' : string * TypeMapping => LMSType kv'.2 = x) l))
          as [Hex|Hex]; rewrite Exists_exists in Hex.
        -- left. destruct Hex as (kv' & ? & ?). by exists kv'.
        -- right. split.
           ++ intros kv' Hin Heq'. apply Hex. by exists kv'.
           ++ subst. by rewrite lookup_insert_eq.
      * left. by exists kv'.
      * right. split.
        -- intros kv' Hin. apply Hnone. by right.
        -- rewrite lookup_insert_ne; [done|]. apply Hnone. left.
Qed.

(** X3: [GetLMSTypes] returns each LMS type that some mapping of the
    manager targets, once, and nothing else, whatever the orders of its two
    [range] loops. *)
Theorem GetLMSTypes_targets (atm : AssignmentTypeManager)
    (morder : list (string * TypeMapping)) (lorder : list (string * bool)) :
  range_order (mappings atm) morder ->
  range_order (lmsTypeSet morder) lorder ->
  NoDup (GetLMSTypes lorder) /\
  (forall x, x ∈ GetLMSTypes lorder <->
     exists k mapping, mappings atm !! k = Some mapping /\ LMSType mapping = x).
Proof.
  intros Hm Hl. unfold GetLMSTypes. split; [by eapply range_order_NoDup|].
  intros x. rewrite list_elem_of_fmap. split.
  - intros ([x' b] & -> & Hin). apply (range_order_elem_of _ _ _ _ Hl) in Hin.
    unfold lmsTypeSet in Hin. apply lmsTypeSet_lookup in Hin
      as [([k mapping] & Hkv & Heq & _) | [_ Hempty]]; [|by rewrite lookup_empty in Hempty].
    exists k, mapping. split; [|done].
    by apply (range_order_elem_of _ _ _ _ Hm).
  - intros (k & mapping & Hk & Heq). exists (x, true). split; [done|].
    apply (range_order_elem_of _ _ _ _ Hl). unfold lmsTypeSet. apply lmsTypeSet_lookup.
    left. exists (k, mapping). split; [|done].
    by apply (range_order_elem_of _ _ _ _ Hm).
Qed.

Lemma foldl_describe_lookup (l : list (string * TypeMapping)) :
  forall (acc : gmap string string) k,
  NoDup l.*1 ->
  foldl (fun result kv => <[kv.1 := describeMapping kv.2]> result) acc l !! k =
    match list_to_map (M := gmap string TypeMapping) l !! k with
    | Some mapping => Some (describeMapping mapping)
    | None => acc !! k
    end.
Proof.
  induction l as [|[k' tm] l IH]; intros acc k Hnd; simpl; [done|].
  apply NoDup_cons in Hnd as [Hk' Hnd]. rewrite IH by done.
  destruct (decide (k' = k)) as [->|Hne].
  - rewrite lookup_insert_eq.
    rewrite (not_elem_of_list_to_map_1 (M := gmap string) l k Hk').
    by rewrite lookup_insert_eq.
  - rewrite !lookup_insert_ne by done. done.
Qed.

(** X4: [ListTypesWithDescriptions] does not depend on the order of the
    [range]: it has the keys of [atm.mappings], and under each key the
    description, an arrow and the LMS type, followed by the subtype in
    brackets when there is one. *)
Theorem ListTypesWithDescriptions_map (atm : AssignmentTypeManager)
    (morder : list (string * TypeMapping)) :
  range_order (mappings atm) morder ->
  ListTypesWithDescriptions morder = describeMapping <$> mappings atm.
Proof.
  intros Hm. apply map_eq. intros k.
  unfold ListTypesWithDescriptions.
  rewrite foldl_describe_lookup by by eapply range_order_NoDup.
  rewrite lookup_fmap, lookup_empty.
  destruct (mappings atm !! k) as [tm|] eqn:Hk.
  - apply (range_order_elem_of _ _ _ _ Hm) in Hk.
    apply (elem_of_list_to_map_1 (M := gmap string)) in Hk;
      [by rewrite Hk | by eapply range_order_NoDup].
  - destruct (list_to_map morder !! k) as [tm|] eqn:Hl; [|done].
    apply (elem_of_list_to_map_2 (M := gmap string)) in Hl.
    apply (range_order_elem_of _ _ _ _ Hm) in Hl. congruence.
Qed.

End Listings.

Lemma GetPortableTypes_keys_witness :
  length (GetPortableTypes reverseOrder) = 21.
Proof.
  rewrite (proj2 (proj2 (GetPortableTypes_keys NewAssignmentTypeManager reverseOrder
                           reverseOrder_range))).
  by vm_compute.
Defined.

Lemma ListTypesWithDescriptions_map_witness :
  ListTypesWithDescriptions reverseOrder !! "drag-drop-labeling" =
    Some "Drag and drop labeling → drag-and-drop (labeling)" /\
  ListTypesWithDescriptions reverseOrder !! "essay" =
    Some "Essay assignment (mapped to writing-long) → writing-long".
Proof.
  rewrite (ListTypesWithDescriptions_map NewAssignmentTypeManager reverseOrder
             reverseOrder_range).
  split; by vm_compute.
Defined.

Lemma GetLMSTypes_targets_witness :
  GetLMSTypes (map_to_list (lmsTypeSet reverseOrder)) ≡ₚ lmsTypes.
Proof.
  destruct (GetLMSTypes_targets NewAssignmentTypeManager reverseOrder
              (map_to_list (lmsTypeSet reverseOrder)) reverseOrder_range
              (reflexivity _)) as [Hnd Hin].
  apply NoDup_Permutation; [done | apply (bool_decide_unpack _); by vm_compute |].
  intros x. rewrite Hin. split.
  - intros (k & mapping & Hk & <-).
    apply mappings_from_literal in Hk as [Hlit _].
    assert (Forall (fun tm => LMSType tm ∈ lmsTypes) directMappings) as Hall
      by (apply (bool_decide_unpack _); by vm_compute).
    rewrite Forall_forall in Hall. by apply Hall.
  - intros Hx.
    assert (Forall (fun x => bool_decide (x ∈ (LMSType <$> directMappings)) = true) lmsTypes)
      as Hall by (apply (bool_decide_unpack _); by vm_compute).
    rewrite Forall_forall in Hall. apply Hall, bool_decide_eq_true in Hx.
    apply list_elem_of_fmap in Hx as (tm & -> & Htm).
    exists (PortableType tm), tm. split; [|done].
    assert (Forall (fun tm => mappings NewAssignmentTypeManager !! PortableType tm = Some tm)
              directMappings) as Hkeys by (apply (bool_decide_unpack _); by vm_compute).
    rewrite Forall_forall in Hkeys. by apply Hkeys.
Defined.

(** ** Suggestions are types that resolve *)

Lemma alias_target_is_key (a t : string) :
  aliases NewAssignmentTypeManager !! a = Some t ->
  is_Some (mappings NewAssignmentTypeManager !! t).
Proof.
  intros Ha. apply aliases_from_literal in Ha.
  assert (Forall (fun kv : string * string =>
                    is_Some (mappings NewAssignmentTypeManager !! kv.2)) defaultAliases)
    as Hall by (apply (bool_decide_unpack _); by vm_compute).
  rewrite Forall_forall in Hall. by apply (Hall (a, t)).
Qed.

Lemma Contains_empty_substr (s : string) : strings.Contains s "" = true.
Proof. by destruct s. Qed.

Section SuggestionsMore.
Context `{GoRuntime}.

(** X5: whatever was typed, every suggestion of [GetSuggestedTypes] is a
    canonical type of the default manager: it resolves to its own mapping,
    passes [ValidatePortableType], and [GetTypeDescription] returns its
    description, never the text for an unknown type. *)
Theorem GetSuggestedTypes_are_canonical
    (morder : list (string * TypeMapping)) (aorder : list (string * string))
    (input s : string) :
  range_order (mappings NewAssignmentTypeManager) morder ->
  range_order (aliases NewAssignmentTypeManager) aorder ->
  s ∈ GetSuggestedTypes morder aorder input ->
  exists mapping,
    mappings NewAssignmentTypeManager !! s = Some mapping /\
    ResolveType NewAssignmentTypeManager s = Ok mapping /\
    ValidatePortableType NewAssignmentTypeManager s = true /\
    GetTypeDescription NewAssignmentTypeManager s = Description mapping /\
    GetTypeDescription NewAssignmentTypeManager s <> "Unknown assignment type".
Proof.
  intros Hm Ha Hs.
  assert (is_Some (mappings NewAssignmentTypeManager !! s)) as [mapping Hk].
  { apply GetSuggestedTypes_elem_of in Hs as [(tm & Hin & _) | (a & Hin & _)].
    - exists tm. by apply (range_order_elem_of _ _ _ _ Hm).
    - apply (range_order_elem_of _ _ _ _ Ha) in Hin. by eapply alias_target_is_key. }
  exists mapping. split; [done|].
  apply mappings_from_literal in Hk as [Hin <-].
  assert (Forall (fun tm => resolvesToItself tm /\
                            Description tm <> "Unknown assignment type") directMappings)
    as Hall by (repeat constructor; discriminate).
  rewrite Forall_forall in Hall. destruct (Hall _ Hin) as [Hres Hdesc].
  unfold resolvesToItself in Hres.
  unfold ValidatePortableType, GetTypeDescription. by rewrite Hres.
Qed.

(** X6: on the empty input everything matches: [GetSuggestedTypes("")]
    is the whole list of canonical types, in the order of the [range] over
    [atm.mappings], as [GetPortableTypes] returns it. *)
Theorem GetSuggestedTypes_empty_input
    (morder : list (string * TypeMapping)) (aorder : list (string * string)) :
  range_order (mappings NewAssignmentTypeManager) morder ->
  range_order (aliases NewAssignmentTypeManager) aorder ->
  GetSuggestedTypes morder aorder "" = GetPortableTypes morder.
Proof.
  intros Hm Ha. unfold GetSuggestedTypes, GetPortableTypes.
  change (strings.ToLower "") with "".
  assert (forall {V} (l : list (string * V)),
            filter (fun kv : string * V => matches "" kv.1 = true) l = l) as Hall.
  { intros V l. induction l as [|kv l IH]; [done|].
    rewrite filter_cons_True; [by rewrite IH|].
    unfold matches. by rewrite Contains_empty_substr. }
  rewrite !Hall. apply uniqueLoop_NoDup_prefix.
  - by eapply range_order_NoDup.
  - intros s _. apply not_isSeen_empty.
  - intros t Ht. left. apply list_elem_of_fmap in Ht as ([a t'] & -> & Hin). simpl.
    apply (range_order_elem_of _ _ _ _ Ha) in Hin.
    apply alias_target_is_key in Hin as [tm Htm].
    apply list_elem_of_fmap. exists (t', tm). split; [done|].
    by apply (range_order_elem_of _ _ _ _ Hm).
Qed.


End SuggestionsMore.

Lemma GetSuggestedTypes_are_canonical_witness :
  @GetTypeDescription plainRuntime NewAssignmentTypeManager "writing-short" =
    "Short writing assignments".
Proof.
  destruct (@GetSuggestedTypes_are_canonical plainRuntime reverseOrder defaultAliases
              "Essay" "writing-short" reverseOrder_range defaultAliases_range)
    as (mapping & Hk & _ & _ & Hdesc & _).
  - apply (bool_decide_unpack _). by vm_compute.
  - rewrite Hdesc. vm_compute in Hk. by injection Hk as <-.
Defined.

Lemma GetSuggestedTypes_empty_input_witness :
  length (@GetSuggestedTypes plainRuntime reverseOrder defaultAliases "") = 21.
Proof.
  rewrite (@GetSuggestedTypes_empty_input plainRuntime reverseOrder defaultAliases
             reverseOrder_range defaultAliases_range).
  by vm_compute.
Defined.

(** ** The validator and the converter together *)

Section ValidatorMore.
Context `{GoRuntime}.
Import ValidationInfo.

Ltac validator_branches pkg :=
  unfold validateAssignmentPackage;
  generalize (AssignmentPackage.Assignment pkg); intros a;
  destruct (decide (Assignment.Title a = "")) as [Htitle|Htitle];
  destruct (decide (Assignment.Type_ a = "")) as [Htype|Htype];
  destruct (decide (Assignment.Type_ a = "multiple-choice")) as [Hmc|Hmc];
  destruct (decide (Assignment.Type_ a = "matching")) as [Hma|Hma];
  destruct (Assignment.Questions a) as [q|];
  destruct (decide (Assignment.Description a = "")) as [Hdesc|Hdesc];
  destruct (Assignment.Points a <=? 0)%Z;
  cbn [recordError recordWarning IsValid Errors Warnings Score];
  try (exfalso; congruence).

(** X8: a package is valid exactly when it has a title, a type, and, for
    the types ["multiple-choice"] and ["matching"], questions; the
    description and the points play no part. A valid package scores at
    least 85, and a package scores 100 exactly when it has neither errors
    nor warnings. *)
Theorem validate_valid_iff (now : Time) (pkg : AssignmentPackage) :
  (IsValid (validateAssignmentPackage now pkg) = true <->
   Assignment.Title (AssignmentPackage.Assignment pkg) <> "" /\
   Assignment.Type_ (AssignmentPackage.Assignment pkg) <> "" /\
   (Assignment.Type_ (AssignmentPackage.Assignment pkg) = "multiple-choice" \/
    Assignment.Type_ (AssignmentPackage.Assignment pkg) = "matching" ->
    Assignment.Questions (AssignmentPackage.Assignment pkg) <> None)) /\
  (IsValid (validateAssignmentPackage now pkg) = true ->
   (85 <= Score (validateAssignmentPackage now pkg))%Z) /\
  (Score (validateAssignmentPackage now pkg) = 100%Z <->
   Errors (validateAssignmentPackage now pkg) = [] /\
   Warnings (validateAssignmentPackage now pkg) = []).
Proof.
  split; [|split].
  - validator_branches pkg; split;
      solve [ discriminate
            | intros _; repeat split; try done; intros [?|?]; congruence
            | done
            | intros (Ht & Hty & Hq); try done; exfalso;
              (apply Hq; [by left | done]) || (apply Hq; [by right | done]) ].
  - validator_branches pkg; intros Hv; solve [discriminate Hv | lia].
  - validator_branches pkg; split;
      solve [ done | discriminate | intros [He Hw]; discriminate He || discriminate Hw ].
Qed.

Lemma convertToLMSFormat_questions g now pkg :
  (convertToLMSFormat g now pkg).1 !! "questions" =
    Some (WDyn (Assignment.Questions (AssignmentPackage.Assignment pkg))).
Proof.
  unfold convertToLMSFormat.
  destruct (GetTypeManager g) as [atm g']. cbn [fst snd].
  destruct (ConvertToLMSFormat atm _) as [[lmsType lmsSubtype]|e]; cbn [fst snd];
    rewrite !lookup_setIfPresent_ne by done; vm_compute; reflexivity.
Qed.

(** X9: the validator compares the type as it is written with
    ["multiple-choice"] and ["matching"], while the converter resolves it.
    A titled package whose type is another spelling of one of them (an
    alias, other letter case, ["quiz"]) is valid with or without questions,
    and goes out under the LMS type of the mapping with the questions it
    has, [nil] included. *)
Theorem validator_checks_the_type_as_written
    (g : option AssignmentTypeManager) (now : Time) (pkg : AssignmentPackage)
    (mapping : TypeMapping) :
  ResolveType (GetTypeManager g).1
    (Assignment.Type_ (AssignmentPackage.Assignment pkg)) = Ok mapping ->
  Assignment.Title (AssignmentPackage.Assignment pkg) <> "" ->
  Assignment.Type_ (AssignmentPackage.Assignment pkg) <> "" ->
  Assignment.Type_ (AssignmentPackage.Assignment pkg) <> "multiple-choice" ->
  Assignment.Type_ (AssignmentPackage.Assignment pkg) <> "matching" ->
  IsValid (validateAssignmentPackage now pkg) = true /\
  Errors (validateAssignmentPackage now pkg) = [] /\
  (convertToLMSFormat g now pkg).1 !! "type" = Some (WString (LMSType mapping)) /\
  (convertToLMSFormat g now pkg).1 !! "questions" =
    Some (WDyn (Assignment.Questions (AssignmentPackage.Assignment pkg))).
Proof.
  intros Hres Ht Hty Hmc Hma.
  split; [|split; [|split; [|apply convertToLMSFormat_questions]]].
  - revert Ht Hty Hmc Hma. clear Hres. validator_branches pkg; done.
  - revert Ht Hty Hmc Hma. clear Hres. validator_branches pkg; done.
  - destruct (convertToLMSFormat_type_subtype g now pkg) as [Hwire _].
    rewrite Hwire. unfold wireTypes, ConvertToLMSFormat. by rewrite Hres.
Qed.

End ValidatorMore.

Lemma validate_valid_iff_witness :
  ValidationInfo.IsValid
    (@validateAssignmentPackage plainRuntime 0%Z
       (packageOf (assignmentOf "Capitals" "matching" "" "" 0 (Some "pairs")))) = true.
Proof.
  apply (proj1 (@validate_valid_iff plainRuntime 0%Z
                  (packageOf (assignmentOf "Capitals" "matching" "" "" 0 (Some "pairs"))))).
  repeat split; discriminate.
Defined.

(** A quiz typed as ["MCQ"], without questions: valid, and sent as
    ["multiple-choice"] with no questions. *)
Lemma validator_checks_the_type_as_written_witness :
  ValidationInfo.IsValid
    (@validateAssignmentPackage plainRuntime 0%Z
       (packageOf (assignmentOf "Capitals" "MCQ" "" "" 1 None))) = true /\
  (@convertToLMSFormat plainRuntime None 0%Z
     (packageOf (assignmentOf "Capitals" "MCQ" "" "" 1 None))).1 !! "type" =
    Some (@WString plainRuntime "multiple-choice") /\
  (@convertToLMSFormat plainRuntime None 0%Z
     (packageOf (assignmentOf "Capitals" "MCQ" "" "" 1 None))).1 !! "questions" =
    Some (@WDyn plainRuntime None).
Proof.
  destruct (@validator_checks_the_type_as_written plainRuntime None 0%Z
              (packageOf (assignmentOf "Capitals" "MCQ" "" "" 1 None))
              (mkTypeMapping "multiple-choice" "multiple-choice" ""
                 "Multiple choice questions" false))
    as (Hvalid & _ & Htype & Hq); try discriminate; [reflexivity|].
  split; [exact Hvalid|]. split; [exact Htype | exact Hq].
Defined.

(** ** The client *)

Section ClientFacts.

Lemma substring_all (s : string) : substring 0 (String.length s) s = s.
Proof. induction s as [|c s IH]; simpl; [done | by rewrite IH]. Qed.

Lemma substring_0_app (a b : string) : substring 0 (String.length a) (a +:+ b) = a.
Proof.
  induction a as [|c a IH]; [by destruct b|].
  rewrite string_app_cons. simpl. by rewrite IH.
Qed.

Lemma substring_length_app (a b : string) :
  substring (String.length a) (String.length b) (a +:+ b) = b.
Proof.
  induction a as [|c a IH].
  - rewrite string_app_empty_l. simpl. apply substring_all.
  - rewrite string_app_cons. simpl. apply IH.
Qed.

Lemma string_length_app (a b : string) :
  String.length (a +:+ b) = String.length a + String.length b.
Proof.
  induction a as [|c a IH]; [done|]. rewrite string_app_cons. simpl. by rewrite IH.
Qed.

Lemma substring_split (n : nat) (s : string) :
  n <= String.length s ->
  s = substring 0 n s +:+ substring n (String.length s - n) s.
Proof.
  revert s. induction n as [|n IH]; intros s Hn.
  - simpl. rewrite Nat.sub_0_r.
    assert (substring 0 0 s = "") as -> by by destruct s.
    rewrite string_app_empty_l. by rewrite substring_all.
  - destruct s as [|c s]; simpl in *; [lia|].
    rewrite string_app_cons. f_equal. apply IH. lia.
Qed.

Lemma HasSuffix_app (a suffix : string) : strings_HasSuffix (a +:+ suffix) suffix = true.
Proof.
  unfold strings_HasSuffix. rewrite string_length_app.
  apply andb_true_iff. split; [apply Nat.leb_le; lia|].
  apply bool_decide_eq_true.
  replace (String.length a + String.length suffix - String.length suffix)
    with (String.length a) by lia.
  apply substring_length_app.
Qed.

Lemma HasSuffix_inv (s suffix : string) :
  strings_HasSuffix s suffix = true ->
  s = substring 0 (String.length s - String.length suffix) s +:+ suffix.
Proof.
  unfold strings_HasSuffix. intros [Hlen Hsub]%andb_true_iff.
  apply Nat.leb_le in Hlen. apply bool_decide_eq_true in Hsub.
  rewrite (substring_split (String.length s - String.length suffix) s) at 1 by lia.
  f_equal. rewrite <- Hsub at 3. f_equal. lia.
Qed.

(** X10: [NewLMSClient] takes one ["/"] off the end of the base URL, and
    no more: a URL and the same URL followed by ["/"] give the same
    client, a URL that does not end in ["/"] is kept as it is, and the key
    is stored unchanged. *)
Theorem NewLMSClient_trims_one_slash (baseURL apiKey : string) :
  NewLMSClient (baseURL +:+ "/") apiKey = {| BaseURL := baseURL; APIKey := apiKey |} /\
  (strings_HasSuffix baseURL "/" = false ->
   NewLMSClient baseURL apiKey = {| BaseURL := baseURL; APIKey := apiKey |}) /\
  (strings_HasSuffix baseURL "/" = true ->
   BaseURL (NewLMSClient baseURL apiKey) +:+ "/" = baseURL).
Proof.
  unfold NewLMSClient, strings_TrimSuffix. split; [|split].
  - rewrite HasSuffix_app, string_length_app. f_equal.
    replace (String.length baseURL + String.length "/" - String.length "/")
      with (String.length baseURL) by (simpl; lia).
    apply substring_0_app.
  - by intros ->.
  - intros Hs. rewrite Hs. cbn [BaseURL]. symmetry. exact (HasSuffix_inv baseURL "/" Hs).
Qed.

End ClientFacts.

Lemma NewLMSClient_trims_one_slash_witness :
  BaseURL (NewLMSClient "http://lms.example//" "key") = "http://lms.example/" /\
  BaseURL (NewLMSClient "http://lms.example" "key") = "http://lms.example".
Proof.
  split.
  - exact (f_equal BaseURL (proj1 (NewLMSClient_trims_one_slash "http://lms.example/" "key"))).
  - exact (f_equal BaseURL
             (proj1 (proj2 (NewLMSClient_trims_one_slash "http://lms.example" "key")) eq_refl)).
Defined.

(** ** Uploads and the outcome of a synchronisation *)

Section SyncFacts.
Context `{LMSWorld}.

Lemma uploadResources_from_spec c assignmentID resources :
  forall ids0 st ids err st',
  uploadResources_from c assignmentID ids0 resources st = ((ids, err), st') ->
  exists ids', ids = ids0 ++ ids' /\
    match err with
    | None => length ids' = length (filter hasLocalFile resources)
    | Some e =>
        exists pre resource post e0 st1,
          resources = pre ++ resource :: post /\
          hasLocalFile resource /\
          inWorld (uploadResource c assignmentID resource) st1 = (Err e0, st') /\
          e = "failed to upload " +:+ Resource.Title resource +:+ ": " +:+ e0 /\
          length ids' = length (filter hasLocalFile pre)
    end.
Proof.
  induction resources as [|resource rest IH]; intros ids0 st ids err st' Hrun; simpl in Hrun.
  - injection Hrun as <- <- <-. exists []. by rewrite app_nil_r.
  - case_decide as Hpath.
    + apply IH in Hrun as (ids' & -> & Herr). exists ids'. split; [done|].
      destruct err as [e|].
      * destruct Herr as (pre & r & post & e0 & st1 & -> & Hfile & Hup & He & Hlen).
        exists (resource :: pre), r, post, e0, st1. repeat split; try done.
        rewrite filter_cons_False; [done|]. unfold hasLocalFile. by intros ?.
      * rewrite filter_cons_False; [done|]. unfold hasLocalFile. by intros ?.
    + destruct (inWorld (uploadResource c assignmentID resource) st)
        as [[resourceID|e0] st1] eqn:Hup.
      * apply IH in Hrun as (ids' & -> & Herr). exists (resourceID :: ids').
        split; [by rewrite <- app_assoc|].
        destruct err as [e|].
        -- destruct Herr as (pre & r & post & e1 & st2 & -> & Hfile & Hup' & He & Hlen).
           exists (resource :: pre), r, post, e1, st2. repeat split; try done.
           rewrite filter_cons_True by done. simpl. by rewrite Hlen.
        -- rewrite filter_cons_True by done. simpl. by rewrite Herr.
      * injection Hrun as <- <- <-. exists []. split; [by rewrite app_nil_r|].
        exists [], resource, rest, e0, st. by repeat split.
Qed.

Lemma uploadResources_from_no_files c assignmentID resources : forall ids0 st,
  Forall (fun resource => Resource.LocalPath resource = "") resources ->
  uploadResources_from c assignmentID ids0 resources st = ((ids0, None), st).
Proof.
  induction resources as [|resource rest IH]; intros ids0 st Hall; simpl; [done|].
  apply Forall_cons in Hall as [Hpath Hall]. rewrite decide_True by done. by apply IH.
Qed.

(** The identifiers [uploadResources_from] adds are those the server
    returned for the files uploaded, in their order. *)
Lemma uploadResources_from_trace c assignmentID resources :
  forall ids0 st ids err st',
  uploadResources_from c assignmentID ids0 resources st = ((ids, err), st') ->
  exists ids', ids = ids0 ++ ids' /\
    match err with
    | None =>
        allUploaded c assignmentID (filter hasLocalFile resources) st = Some (ids', st')
    | Some e =>
        exists pre resource post e0 st1,
          resources = pre ++ resource :: post /\
          hasLocalFile resource /\
          allUploaded c assignmentID (filter hasLocalFile pre) st = Some (ids', st1) /\
          inWorld (uploadResource c assignmentID resource) st1 = (Err e0, st') /\
          e = "failed to upload " +:+ Resource.Title resource +:+ ": " +:+ e0
    end.
Proof.
  induction resources as [|resource rest IH]; intros ids0 st ids err st' Hrun; simpl in Hrun.
  - injection Hrun as <- <- <-. exists []. by rewrite app_nil_r.
  - case_decide as Hpath.
    + apply IH in Hrun as (ids' & -> & Herr). exists ids'. split; [done|].
      assert (~ hasLocalFile resource) as Hskip by (unfold hasLocalFile; by intros ?).
      destruct err as [e|].
      * destruct Herr as (pre & r & post & e0 & st1 & -> & Hfile & Hpre & Hup & He).
        exists (resource :: pre), r, post, e0, st1. split_and!; try done.
        by rewrite filter_cons_False.
      * by rewrite filter_cons_False.
    + destruct (inWorld (uploadResource c assignmentID resource) st)
        as [[resourceID|e0] st1] eqn:Hup.
      * apply IH in Hrun as (ids' & -> & Herr). exists (resourceID :: ids').
        split; [by rewrite <- app_assoc|].
        destruct err as [e|].
        -- destruct Herr as (pre & r & post & e1 & st2 & -> & Hfile & Hpre & Hup' & He).
           exists (resource :: pre), r, post, e1, st2. split_and!; try done.
           rewrite filter_cons_True by done. cbn [allUploaded]. by rewrite Hup, Hpre.
        -- rewrite filter_cons_True by done. cbn [allUploaded]. by rewrite Hup, Herr.
      * injection Hrun as <- <- <-. exists []. split; [by rewrite app_nil_r|].
        exists [], resource, rest, e0, st. by split_and!.
Qed.

(** X11: [uploadResources] never fails as a whole: it returns the
    identifiers it obtained together with the error, if any. Without error
    the files of the resources that have a local path were uploaded one
    after the other, and the identifiers are those the server returned for
    them, in this order. With an error, the loop stopped at the first
    upload that failed: the message names that resource, the identifiers
    are those the server returned for the files before it, and the state
    is the one the failed upload left, nothing after it being tried.
    Resources without a local path are skipped, and when no resource has
    one nothing happens at all. *)
Theorem uploadResources_stops_at_first_failure
    (c : LMSClient) (assignmentID : string) (resources : list Resource) (st : State) :
  exists ids err st',
    uploadResources c assignmentID resources st = (Ok (ids, err), st') /\
    match err with
    | None =>
        allUploaded c assignmentID (filter hasLocalFile resources) st = Some (ids, st')
    | Some e =>
        exists pre resource post e0 st1,
          resources = pre ++ resource :: post /\
          hasLocalFile resource /\
          allUploaded c assignmentID (filter hasLocalFile pre) st = Some (ids, st1) /\
          inWorld (uploadResource c assignmentID resource) st1 = (Err e0, st') /\
          e = "failed to upload " +:+ Resource.Title resource +:+ ": " +:+ e0
    end /\
    (Forall (fun resource => Resource.LocalPath resource = "") resources ->
     ids = [] /\ err = None /\ st' = st).
Proof.
  unfold uploadResources.
  destruct (uploadResources_from c assignmentID [] resources st) as [[ids err] st'] eqn:Hrun.
  exists ids, err, st'. split; [done|]. split.
  - by apply uploadResources_from_trace in Hrun as (ids' & -> & Herr).
  - intros Hall. rewrite uploadResources_from_no_files in Hrun by done.
    by injection Hrun as <- <- <-.
Qed.

(** What a successful [SyncAssignment] returns. *)
Lemma SyncAssignment_Ok c pkg st importResult st' :
  SyncAssignment c pkg st = (Ok importResult, st') ->
  ImportResult.Conflicts importResult = [] /\
  ((ImportResult.Status importResult = "success" /\
    length (ImportResult.ResourceIDs importResult) =
      length (filter hasLocalFile (AssignmentPackage.Resources pkg))) \/
   (ImportResult.Status importResult = "partial" /\
    ImportResult.ResourceIDs importResult = [] /\
    Exists hasLocalFile (AssignmentPackage.Resources pkg))).
Proof.
  unfold SyncAssignment, mbind, IOE_bind, bind, wrap, pure, inWorld, defer, fail, ret.
  destruct (convertToLMSFormat_step pkg st) as [[lms|?] st1]; [|done].
  destruct (json_Marshal_wire lms) as [jsonData|?]; [|done].
  destruct (http_NewRequest _ _ jsonData) as [req|?]; [|done].
  destruct (HTTPClient_Do _ (world st1)) as [[[code body]|?] w2]; [|done].
  cbn [fst snd world globalTypeManager].
  destruct (ioutil_ReadAll body w2) as [[data|?] w3]; [|done].
  destruct (negb (code =? 200)%Z && negb (code =? 201)%Z); [done|].
  destruct (json_Unmarshal_response data) as [[id msg]|?]; [|done].
  cbn [fst snd world globalTypeManager].
  destruct (0 <? length (AssignmentPackage.Resources pkg))%nat eqn:Hlen.
  - unfold uploadResources.
    destruct (uploadResources_from c id [] _ _) as [[ids err] st4] eqn:Hup.
    apply uploadResources_from_spec in Hup as (ids' & -> & Herr). cbn [fst snd].
    destruct err as [e|]; intros [= <- <-]; (split; [done|]); cbn.
    + right. repeat split; try done.
      destruct Herr as (pre & r & post & e0 & st1' & -> & Hfile & _).
      apply Exists_exists. exists r. split; [|done]. apply elem_of_app. right. left.
    + left. split; [done|]. done.
  - intros [= <- <-]. split; [done|]. left. split; [done|]. cbn.
    apply Nat.ltb_ge in Hlen. by destruct (AssignmentPackage.Resources pkg); [|simpl in Hlen; lia].
Qed.

(** X12: a synchronisation that returns a result, and no error, reports
    ["success"] with one resource identifier for each resource that has a
    local file, or ["partial"] with no resource identifier at all, also for
    the files uploaded before the one that failed; it never reports
    ["failed"]. *)
Theorem SyncAssignment_success_or_partial
    (c : LMSClient) (pkg : AssignmentPackage) (st st' : State) (importResult : ImportResult) :
  SyncAssignment c pkg st = (Ok importResult, st') ->
  ImportResult.Status importResult <> "failed" /\
  ((ImportResult.Status importResult = "success" /\
    length (ImportResult.ResourceIDs importResult) =
      length (filter hasLocalFile (AssignmentPackage.Resources pkg))) \/
   (ImportResult.Status importResult = "partial" /\
    ImportResult.ResourceIDs importResult = [] /\
    Exists hasLocalFile (AssignmentPackage.Resources pkg))).
Proof.
  intros Hrun. apply SyncAssignment_Ok in Hrun as [_ Hst]. split; [|done].
  destruct Hst as [[-> _] | [-> _]]; discriminate.
Qed.

Lemma outcomes_not_failed c packages : forall st,
  Forall (fun o => match o with
                   | Ok importResult => ImportResult.Status importResult <> "failed"
                   | Err _ => True
                   end) (outcomes c packages st).
Proof.
  induction packages as [|pkg rest IH]; intros st; simpl; [constructor|].
  destruct (SyncAssignment c pkg st) as [o st1] eqn:Hrun. constructor; [|apply IH].
  destruct o as [importResult|]; [|done].
  apply SyncAssignment_Ok in Hrun as [_ [[-> _] | [-> _]]]; discriminate.
Qed.

(** X13: the counts of a batch can be read off its entries: [FailureCount]
    is the number of entries with the status ["failed"], [SuccessCount] the
    number of the others, the ["partial"] ones included. *)
Theorem BatchSyncAssignments_counts_match_entries
    (c : LMSClient) (packages : list AssignmentPackage) (st : State) :
  exists batch st',
    BatchSyncAssignments c packages st = (Ok batch, st') /\
    BatchImportResult.FailureCount batch =
      Z.of_nat (length (filter (fun r => ImportResult.Status r = "failed")
                          (BatchImportResult.Results batch))) /\
    BatchImportResult.SuccessCount batch =
      Z.of_nat (length (filter (fun r => ImportResult.Status r <> "failed")
                          (BatchImportResult.Results batch))).
Proof.
  unfold BatchSyncAssignments.
  destruct (uuid_New_String (world st)) as [batchID w1].
  destruct (time_Now w1) as [startedAt w2].
  rewrite foldl_batchStep.
  cbn [BatchImportResult.BatchID BatchImportResult.TotalCount BatchImportResult.SuccessCount
       BatchImportResult.FailureCount BatchImportResult.Results BatchImportResult.StartedAt
       BatchImportResult.CompletedAt].
  set (st0 := {| globalTypeManager := globalTypeManager st; world := w2 |}).
  destruct (time_Now (world (stateAfter c packages st0))) as [completedAt w3].
  eexists _, _. split; [reflexivity|].
  cbn [BatchImportResult.FailureCount BatchImportResult.SuccessCount
       BatchImportResult.Results app].
  pose proof (outcomes_not_failed c packages st0) as Hall.
  induction (outcomes c packages st0) as [|o os IH]; [done|].
  apply Forall_cons in Hall as [Ho Hall]. specialize (IH Hall). destruct IH as [IHf IHs].
  rewrite fmap_cons.
  destruct o as [importResult|err]; cbn [recorded].
  - rewrite (filter_cons_True succeeded) by done.
    rewrite (filter_cons_False (fun o => ~ succeeded o)) by (intros Hs; by apply Hs).
    rewrite (filter_cons_False (fun r => ImportResult.Status r = "failed")) by done.
    rewrite (filter_cons_True (fun r => ImportResult.Status r <> "failed")) by done.
    cbn [length]. split; lia.
  - rewrite (filter_cons_False succeeded) by done.
    rewrite (filter_cons_True (fun o => ~ succeeded o)) by (by intros ?).
    rewrite (filter_cons_True (fun r => ImportResult.Status r = "failed")) by done.
    rewrite (filter_cons_False (fun r => ImportResult.Status r <> "failed"))
      by (intros Hs; by apply Hs).
    cbn [length]. split; lia.
Qed.

End SyncFacts.
Lemma partial_run :
  ImportResult.Status
    <$> resolved_result (@SyncAssignment plainRuntime secondUploadFails exampleClient
                           packageWithFiles (noUploadYet 201 1)).1 = Some "partial".
Proof. vm_compute. reflexivity. Qed.

Lemma SyncAssignment_success_or_partial_witness :
  exists importResult st',
    @SyncAssignment plainRuntime secondUploadFails exampleClient packageWithFiles
      (noUploadYet 201 1) = (Ok importResult, st') /\
    ImportResult.Status importResult = "partial" /\
    ImportResult.ResourceIDs importResult = [].
Proof.
  pose proof partial_run as Hp.
  destruct (@SyncAssignment plainRuntime secondUploadFails exampleClient packageWithFiles
              (noUploadYet 201 1)) as [[importResult|err] st'] eqn:Hrun; [|discriminate Hp].
  exists importResult, st'. split; [reflexivity|].
  destruct (@SyncAssignment_success_or_partial plainRuntime secondUploadFails
              exampleClient packageWithFiles (noUploadYet 201 1) st' importResult Hrun)
    as [_ [[Hs _] | [Hs [Hids _]]]].
  - injection Hp as Hp. rewrite Hs in Hp. discriminate Hp.
  - split; [exact Hs | exact Hids].
Defined.

(** The run behind it: the first file is uploaded, the resource without a
    file is skipped, the upload of the third resource fails and the fourth
    is not tried. *)
Example uploadResources_second_upload_fails :
  @uploadResources plainRuntime secondUploadFails exampleClient "a1" fourResources
    (noUploadYet 201 1) =
  (Ok (["r0"], Some "failed to upload Audio: no such file"),
   @mkState plainRuntime secondUploadFails None 2%nat).
Proof. vm_compute. reflexivity. Qed.

(** ** The two checks against the remote system *)

Section RemoteFacts.
Context `{LMSWorld}.
Variable readBeforeError : ResponseBody -> World -> string.
Variable json_Unmarshal_assignment_id : string -> result string.

(** X14: [TestConnection] returns no error exactly when the request could
    be built and the server answered it with the status 200; the body of
    the answer is then closed without having been read. The status 201,
    which [SyncAssignment] accepts, is an error here. *)
Theorem TestConnection_accepts_200_only (c : LMSClient) (st : State) :
  ((TestConnection readBeforeError c st).1 = Ok tt <->
   exists req body w,
     http_NewRequest "GET" (BaseURL c +:+ "/api/auth/me") "" = Ok req /\
     HTTPClient_Do (Request.Header_Set "Authorization" ("Bearer " +:+ APIKey c) req)
       (world st) = (Ok (200%Z, body), w) /\
     world (TestConnection readBeforeError c st).2 = Body_Close body w) /\
  globalTypeManager (TestConnection readBeforeError c st).2 = globalTypeManager st.
Proof.
  unfold TestConnection, mbind, IOE_mbind, bind, wrap, pure, inWorld, defer, fail, ret,
    readAllIgnoringError.
  destruct (http_NewRequest "GET" _ "") as [req|e].
  2: { split; [|done]. split; [done|]. by intros (? & ? & ? & ? & _). }
  destruct (HTTPClient_Do _ (world st)) as [[[code body]|e] w] eqn:Hdo.
  2: { cbn. split; [|done]. split; [done|].
       intros (req' & body & w' & [= <-] & Hdo' & _). by rewrite Hdo in Hdo'. }
  cbn [fst snd world globalTypeManager].
  destruct (code =? 401)%Z eqn:H401.
  { cbn. split; [|done]. split; [done|].
    intros (req' & body' & w' & [= <-] & Hdo' & _). rewrite Hdo in Hdo'.
    injection Hdo' as -> _ _. done. }
  destruct (code =? 200)%Z eqn:H200; cbn [negb].
  - cbn. split; [|done]. split; [|done]. intros _.
    apply Z.eqb_eq in H200 as ->. by exists req, body, w.
  - cbn. destruct (ioutil_ReadAll body w) as [[data|e] w'']; cbn.
    all: split; [|done]; split; [done|].
    all: intros (req' & body' & w' & [= <-] & Hdo' & _); rewrite Hdo in Hdo'.
    all: injection Hdo' as -> _ _; done.
Qed.

(** X15: [GetAssignmentByHash] returns no result and no error exactly for
    the status 404. A result comes with the status 200 only, and is always
    marked ["exists"], with the identifier read from the body and no
    resource identifier. *)
Theorem GetAssignmentByHash_found_or_absent
    (c : LMSClient) (hash : string) (st st' : State) (found : option ImportResult) :
  GetAssignmentByHash readBeforeError json_Unmarshal_assignment_id c hash st
    = (Ok found, st') ->
  exists req code body w,
    http_NewRequest "GET" (BaseURL c +:+ "/api/assignments?sourceHash=" +:+ hash) ""
      = Ok req /\
    HTTPClient_Do (Request.Header_Set "Authorization" ("Bearer " +:+ APIKey c) req)
      (world st) = (Ok (code, body), w) /\
    match found with
    | None => code = 404%Z /\ world st' = Body_Close body w
    | Some importResult =>
        code = 200%Z /\
        exists data w',
          ioutil_ReadAll body w = (Ok data, w') /\
          json_Unmarshal_assignment_id data = Ok (ImportResult.AssignmentID importResult) /\
          ImportResult.Status importResult = "exists" /\
          ImportResult.Message importResult = "Assignment already exists" /\
          ImportResult.ResourceIDs importResult = [] /\
          world st' = Body_Close body w'
    end.
Proof.
  unfold GetAssignmentByHash, mbind, IOE_mbind, bind, wrap, pure, inWorld, defer, fail, ret,
    readAllIgnoringError.
  destruct (http_NewRequest "GET" _ "") as [req|e]; [|done].
  destruct (HTTPClient_Do _ (world st)) as [[[code body]|e] w] eqn:Hdo; [|done].
  cbn [fst snd world globalTypeManager].
  destruct (code =? 404)%Z eqn:H404.
  { cbn. intros [= <- <-]. apply Z.eqb_eq in H404 as ->.
    by exists req, 404%Z, body, w. }
  destruct (code =? 200)%Z eqn:H200; cbn [negb].
  - apply Z.eqb_eq in H200 as ->.
    cbn. destruct (ioutil_ReadAll body w) as [[data|e] w'] eqn:Hread; cbn; [|done].
    destruct (json_Unmarshal_assignment_id data) as [id|e] eqn:Hid; cbn; [|done].
    intros [= <- <-].
    exists req, 200%Z, body, w. repeat split; try done.
    exists data, w'. by repeat split.
  - cbn. by destruct (ioutil_ReadAll body w) as [[data|e] w''].
Qed.

End RemoteFacts.

Lemma GetAssignmentByHash_found_or_absent_witness :
  exists req,
    @http_NewRequest plainRuntime (scriptedWorld 404 0) "GET"
      "http://lms.example/api/assignments?sourceHash=abc" "" = Ok req /\
    @GetAssignmentByHash plainRuntime (scriptedWorld 404 0) (fun _ _ => "")
      (fun _ => Ok "a1") exampleClient "abc" (noUploadYet 404 0)
      = (Ok None, noUploadYet 404 0).
Proof.
  assert (@GetAssignmentByHash plainRuntime (scriptedWorld 404 0) (fun _ _ => "")
            (fun _ => Ok "a1") exampleClient "abc" (noUploadYet 404 0)
          = (Ok None, noUploadYet 404 0)) as Hrun by (vm_compute; reflexivity).
  destruct (@GetAssignmentByHash_found_or_absent plainRuntime (scriptedWorld 404 0)
              (fun _ _ => "") (fun _ => Ok "a1") exampleClient "abc"
              (noUploadYet 404 0) (noUploadYet 404 0) None Hrun)
    as (req & code & body & w & Hreq & _).
  exists req. split; [exact Hreq | exact Hrun].
Defined.

(** A record that exists: the status 200. *)
Example GetAssignmentByHash_exists :
  (@GetAssignmentByHash plainRuntime (scriptedWorld 200 0) (fun _ _ => "")
     (fun _ => Ok "a1") exampleClient "abc" (noUploadYet 200 0)).1
  = Ok (Some (ImportResult.mk "a1" [] [] "exists" "Assignment already exists" ∅)).
Proof. vm_compute. reflexivity. Qed.

(** The status 201 fails both checks, and is a success for
    [SyncAssignment]. *)
Example created_is_not_ok :
  (@TestConnection plainRuntime (scriptedWorld 201 0) (fun _ _ => "")
     exampleClient (noUploadYet 201 0)).1 = Err "LMS returned error (201): {}" /\
  (@GetAssignmentByHash plainRuntime (scriptedWorld 201 0) (fun _ _ => "")
     (fun _ => Ok "a1") exampleClient "abc" (noUploadYet 201 0)).1
    = Err "API error (201): {}" /\
  is_ok (@SyncAssignment plainRuntime (scriptedWorld 201 0) exampleClient
           packageWithFiles (noUploadYet 201 0)).1 = true.
Proof. repeat split; vm_compute; reflexivity. Qed.
(** ** The menu of [runCreate] *)

Section PromptFacts.
Context `{GoRuntime}.

Lemma rev_involutive (s : string) : String.rev (String.rev s) = s.
Proof.
  induction s as [|c s IH]; [done|].
  by rewrite rev_cons, rev_append, IH.
Qed.

Lemma isDigit_plain (c : ascii) :
  strconv.isDigit c = true ->
  strings.RuneSelf c = false /\ strings.asciiSpace c = false /\
  c <> "-"%char /\ c <> "+"%char.
Proof. destruct c as [[] [] [] [] [] [] [] []]; by vm_compute. Qed.

Lemma isDigits_app (a b : string) : isDigits (a +:+ b) = isDigits a && isDigits b.
Proof.
  induction a as [|c a IH]; [done|].
  rewrite ?string_app_cons. simpl. rewrite IH. by rewrite andb_assoc.
Qed.

Lemma isDigits_rev (s : string) : isDigits (String.rev s) = isDigits s.
Proof.
  induction s as [|c s IH]; [done|].
  rewrite rev_cons, isDigits_app, IH. simpl. rewrite andb_true_r. apply andb_comm.
Qed.

Lemma isDigits_isASCII (s : string) : isDigits s = true -> strings.isASCII s = true.
Proof.
  induction s as [|c s IH]; simpl; [done|].
  intros [Hc Hs]%andb_true_iff. destruct (isDigit_plain c Hc) as (-> & _). by rewrite IH.
Qed.

Lemma skipSpace_digits (s : string) : isDigits s = true -> strings.skipSpace s = (s, false).
Proof.
  destruct s as [|c s]; simpl; [done|].
  intros [Hc Hs]%andb_true_iff. by destruct (isDigit_plain c Hc) as (-> & -> & _).
Qed.

(** White space around a number is trimmed away. *)
Lemma TrimSpace_digits (ws1 s ws2 : string) :
  isDigits s = true -> isSpaces ws1 = true -> isSpaces ws2 = true ->
  strings.TrimSpace (ws1 +:+ s +:+ ws2) = s.
Proof.
  intros Hs H1 H2. rewrite TrimSpace_padding by auto using isDigits_isASCII.
  destruct (TrimSpace_ascii s (isDigits_isASCII s Hs)) as [-> _].
  rewrite (skipSpace_digits s) by done. cbn [fst].
  rewrite skipSpace_digits by by rewrite isDigits_rev. cbn [fst].
  apply rev_involutive.
Qed.

Lemma pretty_N_char_digit (d : N) :
  (d < 10)%N ->
  strconv.isDigit (pretty_N_char d) = true /\
  (Z.of_N (N_of_ascii (pretty_N_char d)) - 48)%Z = Z.of_N d.
Proof.
  intros Hd.
  assert (d = 0 \/ d = 1 \/ d = 2 \/ d = 3 \/ d = 4 \/ d = 5 \/ d = 6 \/ d = 7 \/
          d = 8 \/ d = 9)%N as Hcases by lia.
  repeat (destruct Hcases as [-> | Hcases]; [by vm_compute|]). subst d. by vm_compute.
Qed.

(** Reading the digits that [pretty] wrote gives the number back. *)
Lemma digits_pretty_N_go (x : N) : forall s,
  strconv.digits (pretty_N_go x s) 0 = strconv.digits s (Z.of_N x).
Proof.
  induction (N.lt_wf_0 x) as [x _ IH]; intros s.
  assert (x = 0 \/ 0 < x)%N as [-> | Hx] by lia; [by rewrite pretty_N_go_0|].
  rewrite pretty_N_go_step by done.
  rewrite IH by (by apply N.div_lt).
  cbn [strconv.digits].
  destruct (pretty_N_char_digit (x `mod` 10)) as [-> ->]; [by apply N.mod_lt|].
  f_equal. pose proof (N.div_mod x 10). lia.
Qed.

Lemma isDigits_pretty_N_go (x : N) : forall s,
  isDigits s = true -> isDigits (pretty_N_go x s) = true.
Proof.
  induction (N.lt_wf_0 x) as [x _ IH]; intros s Hs.
  assert (x = 0 \/ 0 < x)%N as [-> | Hx] by lia; [by rewrite pretty_N_go_0|].
  rewrite pretty_N_go_step by done.
  apply IH; [by apply N.div_lt|]. cbn [isDigits].
  destruct (pretty_N_char_digit (x `mod` 10)) as [-> _]; [by apply N.mod_lt|done].
Qed.

Lemma pretty_N_go_not_empty (x : N) : forall s, s <> "" -> pretty_N_go x s <> "".
Proof.
  induction (N.lt_wf_0 x) as [x _ IH]; intros s Hs.
  assert (x = 0 \/ 0 < x)%N as [-> | Hx] by lia; [by rewrite pretty_N_go_0|].
  rewrite pretty_N_go_step by done. apply IH; [by apply N.div_lt|done].
Qed.

(** [strconv.Atoi] reads back what [%d] printed for a positive [int]. *)
Lemma Atoi_pretty (k : positive) :
  (Z.pos k <= 2 ^ 63 - 1)%Z ->
  isDigits (pretty (Z.pos k)) = true /\ strconv.Atoi (pretty (Z.pos k)) = Some (Z.pos k).
Proof.
  intros Hk.
  assert (pretty (Z.pos k) = pretty_N_go (N.pos k) "") as -> by done.
  pose proof (isDigits_pretty_N_go (N.pos k) "" eq_refl) as Hd.
  pose proof (digits_pretty_N_go (N.pos k) "") as Hv.
  assert (pretty_N_go (N.pos k) "" <> "") as Hne.
  { rewrite pretty_N_go_step by done. by apply pretty_N_go_not_empty. }
  split; [done|].
  destruct (pretty_N_go (N.pos k) "") as [|c s]; [done|].
  cbn [isDigits] in Hd. apply andb_true_iff in Hd as [Hc _].
  destruct (isDigit_plain c Hc) as (_ & _ & Hminus & Hplus).
  unfold strconv.Atoi.
  rewrite (bool_decide_eq_false_2 _ Hminus), (bool_decide_eq_false_2 _ Hplus).
  cbn [orb]. rewrite Hv. cbn [strconv.digits].
  assert ((- 2 ^ 63 <=? Z.of_N (N.pos k))%Z && (Z.of_N (N.pos k) <=? 2 ^ 63 - 1)%Z = true)
    as ->; [|done].
  apply andb_true_iff. split; apply Z.leb_le; lia.
Qed.

Lemma index_lookup (options : list string) (i : nat) (option : string) :
  options !! i = Some option -> index options i = Done option.
Proof. unfold index. by intros ->. Qed.

Lemma index_Done (options : list string) (i : nat) (option : string) :
  index options i = Done option -> options !! i = Some option.
Proof. unfold index. by destruct (options !! i); intros [= ->]. Qed.

Lemma index_Panic (options : list string) (i : nat) (msg : string) :
  index options i = Panic msg -> length options <= i.
Proof.
  unfold index. destruct (options !! i) eqn:Hi; [done|]. intros _.
  by apply lookup_ge_None.
Qed.

(** X16: [promptSelect] returns one of the options, whatever is typed: the
    option of the number typed when the trimmed line is a number between 1
    and the number of options, the first option otherwise. It panics,
    whatever is typed, exactly when there is no option at all. *)
Theorem promptSelect_returns_an_option (prompt : string) (options : list string)
    (line : string) :
  match (promptSelect prompt options line).2 with
  | Done option =>
      option ∈ options /\
      match strconv.Atoi (strings.TrimSpace line) with
      | Some choice =>
          if decide (1 <= choice <= Z.of_nat (length options))%Z
          then options !! Z.to_nat (choice - 1) = Some option
          else head options = Some option
      | None => head options = Some option
      end
  | Panic _ => options = []
  end.
Proof.
  unfold promptSelect. cbn [snd].
  assert (forall i,
    match index options i with
    | Done option => option ∈ options /\ options !! i = Some option
    | Panic _ => length options <= i
    end) as Hindex.
  { intros i. destruct (index options i) as [option|msg] eqn:Hi.
    - apply index_Done in Hi. split; [by eapply list_elem_of_lookup_2|done].
    - by eapply index_Panic. }
  assert (match index options 0 with
          | Done option => option ∈ options /\ head options = Some option
          | Panic _ => options = []
          end) as Hfirst.
  { specialize (Hindex 0). destruct (index options 0).
    - by rewrite <- head_lookup in Hindex.
    - destruct options; [done|simpl in Hindex; lia]. }
  destruct (strconv.Atoi (strings.TrimSpace line)) as [choice|].
  - destruct (decide (1 <= choice <= Z.of_nat (length options))%Z) as [Hc|Hc].
    + assert ((1 <=? choice)%Z && (choice <=? Z.of_nat (length options))%Z = true) as ->
        by (apply andb_true_iff; split; apply Z.leb_le; lia).
      specialize (Hindex (Z.to_nat (choice - 1))).
      destruct (index options (Z.to_nat (choice - 1))); [done|lia].
    + assert ((1 <=? choice)%Z && (choice <=? Z.of_nat (length options))%Z = false) as ->.
      { apply andb_false_iff.
        destruct (decide (1 <= choice)%Z); [right|left]; apply Z.leb_gt; lia. }
      by destruct (index options 0).
  - by destruct (index options 0).
Qed.

(** X17: typing the number that the menu shows in front of an option
    selects that option, with any white space around the number, the end
    of the line included. *)
Theorem promptSelect_number_selects (prompt : string) (options : list string)
    (i : nat) (option ws1 ws2 : string) :
  options !! i = Some option ->
  (Z.of_nat (length options) <= 2 ^ 63 - 1)%Z ->
  isSpaces ws1 = true -> isSpaces ws2 = true ->
  (promptSelect prompt options (ws1 +:+ pretty (Z.of_nat (i + 1)) +:+ ws2)).2 = Done option.
Proof.
  intros Hi Hlen H1 H2. pose proof (lookup_lt_Some _ _ _ Hi) as Hlt.
  unfold promptSelect. cbn [snd].
  assert (Z.of_nat (i + 1) = Z.pos (Pos.of_succ_nat i)) as -> by lia.
  destruct (Atoi_pretty (Pos.of_succ_nat i)) as [Hd Ha]; [lia|].
  rewrite TrimSpace_digits by done. rewrite Ha.
  assert ((1 <=? Z.pos (Pos.of_succ_nat i))%Z &&
          (Z.pos (Pos.of_succ_nat i) <=? Z.of_nat (length options))%Z = true) as ->
    by (apply andb_true_iff; split; apply Z.leb_le; lia).
  apply index_lookup.
  by replace (Z.to_nat (Z.pos (Pos.of_succ_nat i) - 1)) with i by lia.
Qed.

End PromptFacts.

Lemma promptSelect_number_selects_witness :
  (@promptSelect plainRuntime "Select assignment type:" ["quiz (Quiz)"; "essay (Essay)"]
     (" 2" +:+ String "013" (String "010" ""))).2 = Done "essay (Essay)".
Proof.
  apply (@promptSelect_number_selects plainRuntime "Select assignment type:"
           ["quiz (Quiz)"; "essay (Essay)"] 1 "essay (Essay)" " "
           (String "013" (String "010" ""))).
  - reflexivity.
  - vm_compute. discriminate.
  - reflexivity.
  - reflexivity.
Defined.
(** ** The choice of the type in [runCreate] *)

Section CreateFacts.
Context `{GoRuntime}.

Lemma prefix_app (s t : string) : String.prefix s (s +:+ t) = true.
Proof.
  induction s as [|c s IH]; [by destruct t|].
  rewrite string_app_cons. simpl. by destruct (ascii_dec c c).
Qed.

(** The first occurrence of a separator whose first byte does not occur
    before it. *)
Lemma Index_first (p : string) (c : ascii) (sep' rest : string) :
  containsByte c p = false ->
  strings_Index (p +:+ String c sep' +:+ rest) (String c sep') = Some (String.length p).
Proof.
  induction p as [|b p IH]; intros Hp.
  - rewrite string_app_empty_l, string_app_cons. cbn [strings_Index String.prefix].
    destruct (ascii_dec c c); [|done]. by rewrite prefix_app.
  - cbn [containsByte] in Hp. apply orb_false_iff in Hp as [Hb Hp].
    apply bool_decide_eq_false in Hb.
    rewrite string_app_cons. cbn [strings_Index String.prefix].
    destruct (ascii_dec c b) as [->|_]; [done|].
    by rewrite (IH Hp).
Qed.

(** [strings.Split(s, sep)[0]] is what stands before the separator. *)
Lemma Split_head (p : string) (c : ascii) (sep' rest : string) :
  containsByte c p = false ->
  head (strings_Split (p +:+ String c sep' +:+ rest) c sep') = Some p.
Proof.
  intros Hp. unfold strings_Split.
  destruct (String.length (p +:+ String c sep' +:+ rest)) as [|fuel] eqn:Hlen.
  { rewrite !string_length_app in Hlen. simpl in Hlen. lia. }
  cbn [splitLoop]. rewrite Index_first by done. cbn [head].
  by rewrite substring_0_app.
Qed.

Lemma promptSelect_elem_of (prompt : string) (options : list string) (line : string) :
  match (promptSelect prompt options line).2 with
  | Done option => option ∈ options
  | Panic _ => options = []
  end.
Proof.
  assert (forall i, i = 0 \/ i < length options ->
    match index options i with
    | Done option => option ∈ options
    | Panic _ => options = []
    end) as Hindex.
  { intros i Hi. destruct (index options i) as [option|msg] eqn:Hrun.
    - apply index_Done in Hrun. by eapply list_elem_of_lookup_2.
    - apply index_Panic in Hrun. destruct options; [done|simpl in *; lia]. }
  unfold promptSelect. cbn [snd].
  destruct (strconv.Atoi _) as [choice|]; [|apply Hindex; by left].
  destruct ((1 <=? choice)%Z && (choice <=? Z.of_nat (length options))%Z) eqn:Hc;
    [|apply Hindex; by left].
  apply andb_true_iff in Hc as [H1%Z.leb_le H2%Z.leb_le]. apply Hindex. right. lia.
Qed.

Lemma canonical_keys_have_no_space (k : string) (tm : TypeMapping) :
  mappings NewAssignmentTypeManager !! k = Some tm ->
  containsByte " " k = false /\
  ConvertToLMSFormat NewAssignmentTypeManager k = Ok (LMSType tm, LMSSubtype tm).
Proof.
  intros Hk. apply mappings_from_literal in Hk as [Hin <-].
  assert (Forall (fun tm => containsByte " " (PortableType tm) = false) directMappings)
    as Hspace by (repeat constructor).
  rewrite Forall_forall in Hspace. split; [by apply Hspace|].
  pose proof directMappings_resolve as Hres. rewrite Forall_forall in Hres.
  destruct (Hres tm Hin) as [Hself _]. unfold resolvesToItself in Hself.
  unfold ConvertToLMSFormat. by rewrite Hself.
Qed.

(** X19: when no type is given, [runCreate] shows the menu of the
    canonical types and, whatever is typed, goes on with one of them: the
    text before [" ("] in the entry selected is a canonical key again, the
    one of that entry, and it converts to the LMS type of its mapping.
    With the default manager the menu never panics and the branch for an
    error of [ConvertToLMSFormat] is never taken. *)
Theorem runCreate_type_menu (morder : list (string * TypeMapping))
    (aorder : list (string * string)) (line : string) :
  range_order (mappings NewAssignmentTypeManager) morder ->
  exists assignmentType mapping,
    runCreate_type NewAssignmentTypeManager morder aorder [] line =
      Done (Creating assignmentType (LMSType mapping) (LMSSubtype mapping)) /\
    mappings NewAssignmentTypeManager !! assignmentType = Some mapping /\
    (promptSelect "Select assignment type:"
       ((fun pType =>
           pType +:+ " (" +:+ GetTypeDescription NewAssignmentTypeManager pType +:+ ")")
        <$> GetPortableTypes morder) line).2 =
      Done (assignmentType +:+ " (" +:+ Description mapping +:+ ")").
Proof.
  intros Hrange. unfold runCreate_type.
  pose proof (promptSelect_elem_of "Select assignment type:"
    ((fun pType =>
        pType +:+ " (" +:+ GetTypeDescription NewAssignmentTypeManager pType +:+ ")")
     <$> GetPortableTypes morder) line) as Hsel.
  destruct (promptSelect _ _ line).2 as [selected|msg].
  - apply list_elem_of_fmap in Hsel as (pType & -> & Hin).
    unfold GetPortableTypes in Hin.
    apply list_elem_of_fmap in Hin as ([k mapping] & -> & Hin). cbn [fst].
    apply (range_order_elem_of _ _ _ _ Hrange) in Hin.
    destruct (canonical_keys_have_no_space k mapping Hin) as [Hspace Hconv].
    pose proof (Split_head k " " "("
      (GetTypeDescription NewAssignmentTypeManager k +:+ ")") Hspace) as Hsplit.
    destruct (strings_Split _ " " "(") as [|assignmentType pieces]; [done|].
    injection Hsplit as ->. rewrite Hconv.
    exists k, mapping. split; [done|]. split; [done|].
    unfold GetTypeDescription.
    apply mappings_from_literal in Hin as [Hin <-].
    pose proof directMappings_resolve as Hres. rewrite Forall_forall in Hres.
    destruct (Hres mapping Hin) as [Hself _]. unfold resolvesToItself in Hself.
    by rewrite Hself.
  - exfalso. apply fmap_nil_inv in Hsel. unfold GetPortableTypes in Hsel.
    apply fmap_nil_inv in Hsel. subst morder.
    destruct (mappings NewAssignmentTypeManager !! "quiz") as [quiz|] eqn:Hquiz;
      [|by vm_compute in Hquiz].
    apply (range_order_elem_of _ _ _ _ Hrange) in Hquiz. by apply elem_of_nil in Hquiz.
Qed.

End CreateFacts.

Lemma runCreate_type_menu_witness :
  @runCreate_type plainRuntime NewAssignmentTypeManager literalOrder [] [] "2" =
    Done (Creating "true-false" "true-false" "").
Proof.
  destruct (@runCreate_type_menu plainRuntime literalOrder [] "2" literalOrder_range)
    as (assignmentType & mapping & -> & Hkey & Hsel).
  assert ((@promptSelect plainRuntime "Select assignment type:"
             ((fun pType =>
                 pType +:+ " (" +:+
                 @GetTypeDescription plainRuntime NewAssignmentTypeManager pType +:+ ")")
              <$> GetPortableTypes literalOrder) "2").2 =
          Done "true-false (True/false questions)") as Hrun by (vm_compute; reflexivity).
  rewrite Hrun in Hsel. injection Hsel as Hsel.
  assert (assignmentType = "true-false") as ->.
  { pose proof (f_equal (fun s => head (strings_Split s " " "(")) Hsel) as Hhead.
    cbn beta in Hhead.
    destruct (@canonical_keys_have_no_space plainRuntime _ _ Hkey) as [Hspace _].
    rewrite (Split_head assignmentType " " "(" (Description mapping +:+ ")") Hspace) in Hhead.
    vm_compute in Hhead. by injection Hhead as ->. }
  assert (Some mapping = Some (mkTypeMapping "true-false" "true-false" ""
                                 "True/false questions" false)) as [= ->].
  { rewrite <- Hkey. vm_compute. reflexivity. }
  reflexivity.
Defined.
(** ** The wizard of [runCreate] *)

Section WizardFacts.
Context `{GoRuntime}.
Variable ReadString : nat -> string.
Variable interfaceOf : GoValue -> Dyn.
#[local] Existing Instance Prompt_bind.

Lemma Prompt_bind_Done {A B} (m : Prompt A) (k : A -> Prompt B) n a n' :
  m n = Done (a, n') -> (m ≫= k) n = k a n'.
Proof. unfold mbind, Prompt_bind. by intros ->. Qed.

Lemma Prompt_bind_Panic {A B} (m : Prompt A) (k : A -> Prompt B) n msg :
  m n = Panic msg -> (m ≫= k) n = Panic msg.
Proof. unfold mbind, Prompt_bind. by intros ->. Qed.

Lemma askString_run (prompt defaultValue : string) (n : nat) :
  askString ReadString prompt defaultValue n =
    Done ((promptString prompt defaultValue (ReadString n)).2, S n).
Proof. reflexivity. Qed.

(** With the empty default, [promptString] returns the trimmed line. *)
Lemma promptString_no_default (prompt line : string) :
  (promptString prompt "" line).2 = strings.TrimSpace line.
Proof. unfold promptString. cbn [snd]. by case_decide. Qed.

Lemma askSelect_Done (prompt : string) (options : list string) (n : nat) :
  options <> [] ->
  exists option, askSelect ReadString prompt options n = Done (option, S n) /\ option ∈ options.
Proof.
  intros Hne. unfold askSelect, prompted.
  pose proof (promptSelect_elem_of prompt options (ReadString n)) as Hsel.
  destruct (promptSelect prompt options (ReadString n)).2 as [option|msg]; [|done].
  by exists option.
Qed.

Lemma askSelect_nil (prompt : string) (n : nat) :
  exists msg, askSelect ReadString prompt [] n = Panic msg.
Proof.
  unfold askSelect, prompted.
  pose proof (promptSelect_elem_of prompt [] (ReadString n)) as Hsel.
  destruct (promptSelect prompt [] (ReadString n)).2 as [option|msg].
  - by apply elem_of_nil in Hsel.
  - by exists msg.
Qed.

(** The loop of the options returns, with the options it had and those
    typed; it adds none exactly when the first line it reads is blank. *)
Lemma optionsLoop_Done (rounds : nat) : forall i options n,
  exists more n',
    optionsLoop ReadString rounds i options n = Done (options ++ more, n') /\
    (rounds <> 0 -> more = [] <-> strings.TrimSpace (ReadString n) = "").
Proof.
  induction rounds as [|rounds IH]; intros i options n.
  - exists [], n. split; [by rewrite app_nil_r|done].
  - cbn [optionsLoop].
    rewrite (Prompt_bind_Done _ _ _ _ _ (askString_run _ "" n)).
    rewrite promptString_no_default.
    destruct (decide (strings.TrimSpace (ReadString n) = "")) as [Hblank|Hline].
    + exists [], (S n). split; [by rewrite app_nil_r|done].
    + destruct (IH (S i) (options ++ [strings.TrimSpace (ReadString n)]) (S n))
        as (more & n' & -> & _).
      exists (strings.TrimSpace (ReadString n) :: more), n'.
      split; [by rewrite <- app_assoc|]. intros _. split; [done|]. by intros ?.
Qed.

Lemma pairsLoop_Done (rounds : nat) : forall i leftItems rightItems n,
  exists items n', pairsLoop ReadString rounds i leftItems rightItems n = Done (items, n').
Proof.
  induction rounds as [|rounds IH]; intros i leftItems rightItems n; [by eexists _, _|].
  cbn [pairsLoop].
  rewrite (Prompt_bind_Done _ _ _ _ _ (askString_run _ "" n)).
  case_decide; [by eexists _, _|].
  rewrite (Prompt_bind_Done _ _ _ _ _ (askString_run _ "" (S n))).
  apply IH.
Qed.

(** [createMultipleChoiceQuestions] panics exactly when no option is
    typed: the line read for the first option, the one after the
    question, is blank. *)
Lemma createMultipleChoiceQuestions_run (n : nat) :
  match createMultipleChoiceQuestions ReadString n with
  | Done (questions, _) =>
      strings.TrimSpace (ReadString (S n)) <> "" /\ jsonSupported questions = true
  | Panic _ => strings.TrimSpace (ReadString (S n)) = ""
  end.
Proof.
  unfold createMultipleChoiceQuestions.
  rewrite (Prompt_bind_Done _ _ _ _ _ (askString_run _ "" n)).
  destruct (optionsLoop_Done 10 0 [] (S n)) as (options & n' & Hloop & Hblank).
  rewrite (Prompt_bind_Done _ _ _ _ _ Hloop). cbn [app].
  specialize (Hblank ltac:(done)).
  destruct options as [|option options].
  - destruct (askSelect_nil "Correct answer:" n') as [msg Hsel].
    rewrite (Prompt_bind_Panic _ _ _ _ Hsel). by apply Hblank.
  - destruct (askSelect_Done "Correct answer:" (option :: options) n' ltac:(done))
      as (correctAnswer & Hsel & _).
    rewrite (Prompt_bind_Done _ _ _ _ _ Hsel).
    rewrite (Prompt_bind_Done _ _ _ _ _ (askString_run _ "" (S n'))).
    cbn. split; [|done]. intros Hline. by apply Hblank in Hline.
Qed.

Lemma createMatchingQuestions_run (n : nat) :
  exists questions n',
    createMatchingQuestions ReadString n = Done (questions, n') /\
    jsonSupported questions = true.
Proof.
  unfold createMatchingQuestions.
  destruct (pairsLoop_Done 10 0 [] [] n) as (items & n' & Hloop).
  rewrite (Prompt_bind_Done _ _ _ _ _ Hloop). by eexists _, _.
Qed.

Lemma createCodeSubmissionConfig_run (n : nat) :
  exists questions n',
    createCodeSubmissionConfig ReadString n = Done (questions, n') /\
    jsonSupported questions = true.
Proof. by eexists _, _. Qed.

Ltac listed :=
  rewrite ?elem_of_cons, ?elem_of_nil in *;
  intuition (first [congruence | discriminate]).

(** What the wizard returns, and when it panics; [n] lines were read
    before it. *)
Lemma createAssignmentWizard_run (assignmentType : string) (n : nat) :
  match createAssignmentWizard ReadString interfaceOf assignmentType n with
  | Panic _ =>
      assignmentType = "multiple-choice" /\ strings.TrimSpace (ReadString (n + 6)) = ""
  | Done (assignment, _) =>
      ~ (assignmentType = "multiple-choice" /\ strings.TrimSpace (ReadString (n + 6)) = "") /\
      Assignment.Type_ assignment = assignmentType /\
      Assignment.Title assignment = strings.TrimSpace (ReadString n) /\
      Assignment.Difficulty assignment ∈ ["beginner"; "intermediate"; "advanced"] /\
      (Assignment.Questions assignment <> None <->
       assignmentType ∈ ["multiple-choice"; "matching"; "code-submission"]) /\
      (Assignment.Questions assignment = None \/
       exists questions,
         Assignment.Questions assignment = Some (interfaceOf questions) /\
         jsonSupported questions = true) /\
      Assignment.CodeSubmissionConfig assignment = None /\
      (Assignment.AutoGrade assignment = false <->
       assignmentType ∈ ["writing"; "writing-long"; "code-submission"])
  end.
Proof.
  unfold createAssignmentWizard.
  rewrite (Prompt_bind_Done _ _ _ _ _ (askString_run _ "" n)).
  rewrite (Prompt_bind_Done _ _ _ _ _ (askString_run _ "" (S n))).
  rewrite (Prompt_bind_Done _ _ _ _ _ (askString_run _ "" (S (S n)))).
  destruct (askSelect_Done "Difficulty:" ["beginner"; "intermediate"; "advanced"]
              (S (S (S n))) ltac:(done)) as (difficulty & Hsel & Hdifficulty).
  rewrite (Prompt_bind_Done _ _ _ _ _ Hsel).
  rewrite (Prompt_bind_Done _ _ _ _ _ (askString_run _ "1" (S (S (S (S n)))))).
  cbn zeta. rewrite !promptString_no_default.
  replace (n + 6) with (S (S (S (S (S (S n)))))) by lia.
  destruct (decide (assignmentType = "multiple-choice")) as [->|Hmc].
  { pose proof (createMultipleChoiceQuestions_run (S (S (S (S (S n)))))) as Hq.
    unfold mbind, Prompt_bind.
    destruct (createMultipleChoiceQuestions ReadString _) as [[questions n']|msg]; [|done].
    destruct Hq as [Hline Hjson]. cbn.
    split_and!; try done; try by intros [_ ?].
    - split; [intros _; by left | done].
    - right. by exists questions.
    - split; [done|]. listed. }
  destruct (decide (assignmentType = "matching")) as [->|Hmatching].
  { destruct (createMatchingQuestions_run (S (S (S (S (S n))))))
      as (questions & n' & Hq & Hjson).
    rewrite (Prompt_bind_Done _ _ _ _ _ Hq). cbn.
    split_and!; try done; try by intros [? _].
    - split; [intros _; listed | done].
    - right. by exists questions.
    - split; [done|]. listed. }
  destruct (decide (assignmentType = "writing" \/ assignmentType = "writing-long"))
    as [Hwriting|Hwriting].
  { rewrite (Prompt_bind_Done _ _ _ _ _ (askString_run _ "" (S (S (S (S (S n))))))).
    rewrite (Prompt_bind_Done _ _ _ _ _ (askString_run _ "" (S (S (S (S (S (S n)))))))).
    cbn.
    split_and!; try done; try by intros [? _].
    - split; [done|]. destruct Hwriting as [-> | ->]; listed.
    - by left.
    - split; [intros _|done]. destruct Hwriting as [-> | ->]; listed. }
  destruct (decide (assignmentType = "code-submission")) as [->|Hcode].
  { destruct (createCodeSubmissionConfig_run (S (S (S (S (S n))))))
      as (questions & n' & Hq & Hjson).
    rewrite (Prompt_bind_Done _ _ _ _ _ Hq). cbn.
    split_and!; try done; try by intros [? _].
    - split; [intros _; listed | done].
    - right. by exists questions.
    - split; [intros _; listed | done]. }
  cbn.
  split_and!; try done; try by intros [? _].
  - split; [done|]. listed.
  - by left.
  - split; [done|]. listed.
Qed.

(** X18: [runCreate] with the type as an argument. A type that does not
    resolve stops it with the suggestions. A type that resolves is
    passed to the wizard as it was typed, and the wizard compares it with
    its own five literals: only for ["multiple-choice"], ["matching"] and
    ["code-submission"] written exactly so does the assignment get
    questions, and an alias or another letter case gets none. The values
    stored are all values that [json.Marshal] can encode, and
    [CodeSubmissionConfig] stays [nil]. The run panics exactly when the type
    is ["multiple-choice"] and the line read for the first option (the
    seventh line) is blank: [promptSelect] is then called without options.
    The branch for an error of [ConvertToLMSFormat] is never taken. *)
Theorem runCreate_argument_wizard (atm : AssignmentTypeManager)
    (morder : list (string * TypeMapping)) (aorder : list (string * string))
    (inputType : string) (rest : list string) :
  match ResolveType atm inputType with
  | Err _ =>
      exists suggestions,
        runCreate_assignment ReadString interfaceOf atm morder aorder (inputType :: rest) =
          Done (Stopped (UnknownType inputType suggestions)) /\
        suggestions.*1 = GetSuggestedTypes morder aorder inputType
  | Ok mapping =>
      match runCreate_assignment ReadString interfaceOf atm morder aorder
              (inputType :: rest) with
      | Panic _ =>
          inputType = "multiple-choice" /\ strings.TrimSpace (ReadString 6) = ""
      | Done (Stopped _) => False
      | Done (Created assignmentType lmsType lmsSubtype assignment) =>
          ~ (inputType = "multiple-choice" /\ strings.TrimSpace (ReadString 6) = "") /\
          assignmentType = inputType /\
          lmsType = LMSType mapping /\
          lmsSubtype = LMSSubtype mapping /\
          Assignment.Type_ assignment = inputType /\
          Assignment.Title assignment = strings.TrimSpace (ReadString 0) /\
          Assignment.Difficulty assignment ∈ ["beginner"; "intermediate"; "advanced"] /\
          (Assignment.Questions assignment <> None <->
           inputType ∈ ["multiple-choice"; "matching"; "code-submission"]) /\
          (Assignment.Questions assignment = None \/
           exists questions,
             Assignment.Questions assignment = Some (interfaceOf questions) /\
             jsonSupported questions = true) /\
          Assignment.CodeSubmissionConfig assignment = None /\
          (Assignment.AutoGrade assignment = false <->
           inputType ∈ ["writing"; "writing-long"; "code-submission"])
      end
  end.
Proof.
  unfold runCreate_assignment, runCreate_type, ValidatePortableType, ConvertToLMSFormat.
  destruct (ResolveType atm inputType) as [mapping|err]; cbn [is_ok negb].
  - pose proof (createAssignmentWizard_run inputType 0) as Hwizard.
    change (0 + 6) with 6 in Hwizard.
    destruct (createAssignmentWizard ReadString interfaceOf inputType 0)
      as [[assignment n']|msg]; [|done].
    destruct Hwizard as (Hblank & Hrest).
    split; [exact Hblank|]. do 3 (split; [reflexivity|]). exact Hrest.
  - eexists. split; [done|].
    rewrite <- list_fmap_compose. apply list_fmap_id.
Qed.

End WizardFacts.

Lemma runCreate_argument_wizard_witness :
  (exists msg,
     @runCreate_assignment valueRuntime
       (typed ["Fractions"; ""; ""; "2"; "5"; "What is 1/2 + 1/2?"; ""]) (fun v => v)
       NewAssignmentTypeManager literalOrder [] ["multiple-choice"] = Panic msg) /\
  (exists assignment,
     @runCreate_assignment valueRuntime
       (typed ["Fractions"; ""; ""; "2"; "5"; "What is 1/2 + 1/2?"; ""]) (fun v => v)
       NewAssignmentTypeManager literalOrder [] ["mcq"] =
       Done (Created "mcq" "multiple-choice" "" assignment) /\
     Assignment.Questions assignment = None).
Proof.
  split.
  - pose proof (@runCreate_argument_wizard valueRuntime
                  (typed ["Fractions"; ""; ""; "2"; "5"; "What is 1/2 + 1/2?"; ""])
                  (fun v => v) NewAssignmentTypeManager literalOrder [] "multiple-choice" [])
      as Hrun.
    destruct (@ResolveType valueRuntime NewAssignmentTypeManager "multiple-choice")
      as [mapping|err] eqn:Hres; [|by vm_compute in Hres].
    destruct (@runCreate_assignment valueRuntime _ _ _ _ _ _) as [[step|t l s a]|msg].
    + destruct Hrun.
    + destruct Hrun as [Hblank _]. exfalso. apply Hblank. split; reflexivity.
    + by exists msg.
  - pose proof (@runCreate_argument_wizard valueRuntime
                  (typed ["Fractions"; ""; ""; "2"; "5"; "What is 1/2 + 1/2?"; ""])
                  (fun v => v) NewAssignmentTypeManager literalOrder [] "mcq" [])
      as Hrun.
    assert (@ResolveType valueRuntime NewAssignmentTypeManager "mcq" =
            Ok (mkTypeMapping "multiple-choice" "multiple-choice" ""
                  "Multiple choice questions" false)) as Hres by (vm_compute; reflexivity).
    rewrite Hres in Hrun. cbn [LMSType LMSSubtype] in Hrun.
    destruct (@runCreate_assignment valueRuntime _ _ _ _ _ _) as [[step|t l s a]|msg].
    + destruct Hrun.
    + destruct Hrun as (_ & -> & -> & -> & _ & _ & _ & Hquestions & _).
      exists a. split; [reflexivity|].
      destruct (Assignment.Questions a) as [questions|]; [|reflexivity].
      exfalso. assert ("mcq" ∈ ["multiple-choice"; "matching"; "code-submission"]) as Hin
        by by apply Hquestions.
      rewrite !elem_of_cons, elem_of_nil in Hin.
      destruct Hin as [Hin|[Hin|[Hin|[]]]]; discriminate Hin.
    + destruct Hrun as [Hmc _]. discriminate Hmc.
Defined.
